(** * LLMCodeTester (app.py): a shallow embedding and its verified properties

    The harness asks a model for a one-parameter function, loads the answer
    with [exec], calls the first suitable callable on the test input and
    compares the string form of the result with the expected output, with one
    retry that feeds the execution error back to the model.

    Modelling choices.
    - A Python [str] is a list of Unicode code points ([N]); [u] injects an
      ASCII literal.
    - The Python interpreter ([exec], [callable], calling an object, [str] of
      an object, the Unicode "printable" table) and the completion backend are
      not code of the repository: they are parameters ([Python], [Backend]).
      Only terminating behaviour is represented, and what generated code
      itself prints is left out.
    - An exception raised by generated code ([Raised]) carries what [str] of
      it does: return its description, or raise in turn (a [__str__] that
      raises).  The exceptions of the libraries the harness calls
      ([requests], [json], [os]: [Exc], [LibOutcome]) have a [str] that
      returns.
    - Opening a file and [json.load] are inputs: [process_json_file] receives
      the decoded value or the exception raised.  For [run] and [main] the
      health endpoint, the directory listing, the file contents and the path
      tests form an explicit [Env].
    - Console output and the prompts sent to the backend are kept in an
      explicit [World]; a raised exception is an explicit [Raise] outcome. *)

From Stdlib Require Import List ZArith NArith Bool Lia Ascii Permutation Sorted.
From Stdlib Require String DecimalString.
Import ListNotations String.StringSyntax.

Open Scope Z_scope.
Set Warnings "-register-all".

(** ** Python strings *)

Definition char := N.
Definition str := list char.

(** An ASCII literal as a [str]. *)
Definition u (s : String.string) : str :=
  map N_of_ascii (String.list_ascii_of_string s).

Arguments u s%_string_scope.

Definition nl : str := [10%N].

Definition str_eqb (a b : str) : bool :=
  if list_eq_dec N.eq_dec a b then true else false.

Definition len (s : str) : Z := Z.of_nat (length s).

(** [s.startswith(p)] *)
Fixpoint startswith (s p : str) {struct p} : bool :=
  match p, s with
  | [], _ => true
  | _ :: _, [] => false
  | a :: p', b :: s' => N.eqb a b && startswith s' p'
  end.

(** Scan of [s], whose first character sits at index [i] of the whole string:
    lowest index at which [sub] occurs, [-1] when there is none. *)
Fixpoint find_at (s sub : str) (i : Z) : Z :=
  if startswith s sub then i
  else match s with
       | [] => -1
       | _ :: s' => find_at s' sub (i + 1)
       end.

(** [s.find(sub, start)] for [0 <= start]. *)
Definition find (s sub : str) (start : Z) : Z :=
  if len s <? start then -1
  else find_at (skipn (Z.to_nat start) s) sub start.

(** [sub in s] *)
Definition contains (s sub : str) : bool :=
  negb (find s sub 0 =? -1).

(** [s[start:stop]] for non-negative indices. *)
Definition slice (s : str) (start stop : Z) : str :=
  firstn (Z.to_nat stop - Z.to_nat start) (skipn (Z.to_nat start) s).

(** [str.isspace] of one code point: the ASCII table of CPython
    (TAB..CR, FS..US, SPACE) and the Unicode White_Space characters. *)
Definition isspace (c : char) : bool :=
  ((9 <=? c) && (c <=? 13) || (28 <=? c) && (c <=? 32)
   || (c =? 133) || (c =? 160) || (c =? 5760)
   || (8192 <=? c) && (c <=? 8202)
   || (c =? 8232) || (c =? 8233) || (c =? 8239) || (c =? 8287)
   || (c =? 12288))%N.

Fixpoint lstrip (s : str) : str :=
  match s with
  | [] => []
  | c :: s' => if isspace c then lstrip s' else s
  end.

Definition rstrip (s : str) : str := rev (lstrip (rev s)).

(** [s.strip()] *)
Definition strip (s : str) : str := rstrip (lstrip s).

(** ** extract_python_code *)

Definition fence : str := u "```".
Definition python_fence : str := u "```python".

(** Lines 79-100.  The two [if] blocks fall through when [end == -1]. *)
Definition extract_python_code (llm_response : str) : str :=
  match llm_response with
  | [] => []
  | _ =>
    let tagged :=
      if contains llm_response python_fence then
        let start := find llm_response python_fence 0 + len python_fence in
        let end_ := find llm_response fence start in
        if negb (end_ =? -1) then Some (strip (slice llm_response start end_))
        else None
      else None in
    match tagged with
    | Some code => code
    | None =>
      let plain :=
        if contains llm_response fence then
          let start := find llm_response fence 0 + 3 in
          let end_ := find llm_response fence start in
          if negb (end_ =? -1) then Some (strip (slice llm_response start end_))
          else None
        else None in
      match plain with
      | Some code => code
      | None => strip llm_response
      end
    end
  end.

(** ** JSON-decoded values and the builtin [str] *)

(** What [json.load] returns.  A float is represented by what the program can
    observe of it: its [repr] and whether it is non-zero.  A [dict] is an
    association list in insertion order (keys are unique after decoding). *)
Inductive PyVal : Type :=
  | VNone
  | VBool (b : bool)
  | VInt (z : Z)
  | VFloat (repr : str) (nonzero : bool)
  | VStr (s : str)
  | VList (l : list PyVal)
  | VDict (d : list (str * PyVal)).

Definition dict := list (str * PyVal).

(** [type(v).__name__] *)
Definition type_name (v : PyVal) : str :=
  match v with
  | VNone => u "NoneType"
  | VBool _ => u "bool"
  | VInt _ => u "int"
  | VFloat _ _ => u "float"
  | VStr _ => u "str"
  | VList _ => u "list"
  | VDict _ => u "dict"
  end.

(** [bool(v)] *)
Definition truthy (v : PyVal) : bool :=
  match v with
  | VNone => false
  | VBool b => b
  | VInt z => negb (z =? 0)
  | VFloat _ nz => nz
  | VStr s => negb (str_eqb s [])
  | VList l => match l with [] => false | _ => true end
  | VDict d => match d with [] => false | _ => true end
  end.

(** [v is None] *)
Definition is_None (v : PyVal) : bool :=
  match v with VNone => true | _ => false end.

(** [isinstance(v, dict)] *)
Definition is_dict (v : PyVal) : bool :=
  match v with VDict _ => true | _ => false end.

(** [d.get(k)]: the value, [None] when the key is absent. *)
Fixpoint dict_get (d : dict) (k : str) : PyVal :=
  match d with
  | [] => VNone
  | (k', v) :: d' => if str_eqb k' k then v else dict_get d' k
  end.

(** [k in d.keys()] *)
Definition has_key (d : dict) (k : str) : bool :=
  existsb (fun kv => str_eqb (fst kv) k) d.

(** [sep.join(parts)] *)
Fixpoint join (sep : str) (parts : list str) : str :=
  match parts with
  | [] => []
  | [p] => p
  | p :: ps => p ++ sep ++ join sep ps
  end.

Definition decimal (z : Z) : str :=
  u (DecimalString.NilZero.string_of_int (Z.to_int z)).

Definition hex_digit (d : N) : char :=
  if (d <? 10)%N then (48 + d)%N else (87 + d)%N.

Fixpoint hex_fixed (width : nat) (n : N) : str :=
  match width with
  | O => []
  | S w => hex_fixed w (n / 16)%N ++ [hex_digit (n mod 16)%N]
  end.

Definition has_char (c : char) (s : str) : bool := existsb (N.eqb c) s.

Section Repr.

(** [str.isprintable] of a non-ASCII code point: the interpreter's Unicode
    table. *)
Variable isprintable : char -> bool.

Definition repr_char (quote c : char) : str :=
  (if (c =? quote) || (c =? 92) then [92; c]
   else if c =? 9 then u "\t"
   else if c =? 10 then u "\n"
   else if c =? 13 then u "\r"
   else if (c <? 32) || (c =? 127) then u "\x" ++ hex_fixed 2 c
   else if c <? 127 then [c]
   else if isprintable c then [c]
   else if c <=? 255 then u "\x" ++ hex_fixed 2 c
   else if c <=? 65535 then u "\u" ++ hex_fixed 4 c
   else u "\U" ++ hex_fixed 8 c)%N.

(** [repr(s)] of a [str]: single quotes unless the text holds a single
    quote and no double quote. *)
Definition repr_str (s : str) : str :=
  let quote := if has_char 39%N s && negb (has_char 34%N s) then 34%N else 39%N in
  [quote] ++ flat_map (repr_char quote) s ++ [quote].

(** [repr(v)] *)
Fixpoint py_repr (v : PyVal) : str :=
  match v with
  | VNone => u "None"
  | VBool true => u "True"
  | VBool false => u "False"
  | VInt z => decimal z
  | VFloat r _ => r
  | VStr s => repr_str s
  | VList l => u "[" ++ join (u ", ") (map py_repr l) ++ u "]"
  | VDict d =>
      u "{" ++ join (u ", ")
                 (map (fun kv => match kv with
                                 | (k, x) => repr_str k ++ u ": " ++ py_repr x
                                 end) d)
      ++ u "}"
  end.

(** [str(v)], also what an f-string and [str.format] insert. *)
Definition py_str (v : PyVal) : str :=
  match v with
  | VStr s => s
  | _ => py_repr v
  end.

End Repr.

(** ** Exceptions and outcomes *)

(** The part of an exception's class the handlers of app.py distinguish:
    [except json.JSONDecodeError], [except Exception], and what neither
    catches ([SystemExit], [KeyboardInterrupt], [GeneratorExit]). *)
Inductive ExcKind : Type :=
  | JSONDecodeError
  | OtherException
  | BaseExceptionOnly.

Record Exc : Type := MkExc {
  exc_kind : ExcKind;
  exc_str : str            (* str(e) *)
}.

(** [isinstance(e, Exception)] *)
Definition is_Exception (e : Exc) : bool :=
  match exc_kind e with
  | BaseExceptionOnly => false
  | _ => true
  end.

(** An exception as it travels through the program.  [Exc] is an exception
    whose [str] returns (every exception of the standard library and of
    [requests] is one); [Unprintable kind inner] is an exception of a class
    defined by generated code whose [__str__] raises [inner]. *)
Inductive Raised : Type :=
  | Plain (e : Exc)
  | Unprintable (kind : ExcKind) (inner : Raised).

Coercion Plain : Exc >-> Raised.

Definition raised_kind (r : Raised) : ExcKind :=
  match r with
  | Plain e => exc_kind e
  | Unprintable kind _ => kind
  end.

(** [isinstance(e, Exception)] for any raised exception. *)
Definition isinstance_Exception (r : Raised) : bool :=
  match raised_kind r with
  | BaseExceptionOnly => false
  | _ => true
  end.

Inductive Result (E A : Type) : Type :=
  | Ret (a : A)
  | Raise (e : E).

Arguments Ret {E A} a.
Arguments Raise {E A} & e.

(** How a piece of the program ends: a value, or a raised exception. *)
Definition Outcome (A : Type) : Type := Result Raised A.

(** How a call into the standard library ends (opening and decoding a file,
    listing a directory, the health request): its exceptions have a [str]. *)
Definition LibOutcome (A : Type) : Type := Result Exc A.

Definition of_lib {A} (o : LibOutcome A) : Outcome A :=
  match o with
  | Ret a => Ret a
  | Raise e => Raise (Plain e)
  end.

(** [str(e)]: the description, or what [__str__] raises. *)
Definition str_exception (r : Raised) : Outcome str :=
  match r with
  | Plain e => Ret (exc_str e)
  | Unprintable _ inner => Raise inner
  end.

Definition obind {A B} (o : Outcome A) (k : A -> Outcome B) : Outcome B :=
  match o with
  | Ret a => k a
  | Raise e => Raise e
  end.

(** [try: body  except Exception as e: handler(e)] *)
Definition try_except_Exception {A} (body : Outcome A) (handler : Raised -> Outcome A)
  : Outcome A :=
  match body with
  | Ret a => Ret a
  | Raise e => if isinstance_Exception e then handler e else Raise e
  end.

Definition AttributeError (v : PyVal) (attr : str) : Exc :=
  MkExc OtherException
        (u "'" ++ type_name v ++ u "' object has no attribute '" ++ attr ++ u "'").

(** ** The Python interpreter *)

(** [exec code] is the evaluation of [exec(code, {})]: the bindings of the
    fresh namespace afterwards, in insertion order ([__builtins__] included),
    or the exception raised. *)
Record Python : Type := MkPython {
  Obj : Type;
  exec : str -> Outcome (list (str * Obj));
  callable : Obj -> bool;
  call : Obj -> PyVal -> Outcome Obj;       (* obj(arg) *)
  str_obj : Obj -> Outcome str;             (* str(obj) *)
  isprintable : char -> bool
}.

(** ** The completion backend *)

Inductive CompletionOutcome : Type :=
  | Success (text : str)                 (* response.json()["response"] *)
  | Timeout                              (* requests.exceptions.Timeout *)
  | TransportError (detail : str)        (* other RequestException, str(e) *)
  | Malformed (e : Exc).                 (* any other exception, such as the
                                            KeyError of an answer without a
                                            "response" field *)

(** The outcomes [call_ollama_api] turns into [None]. *)
Definition no_answer (o : CompletionOutcome) : bool :=
  match o with
  | Timeout | TransportError _ => true
  | _ => false
  end.

(** The backend answers a prompt knowing the prompts it was sent before. *)
Definition Backend := list str -> str -> CompletionOutcome.

(** ** Configuration constants *)

Record Config : Type := MkConfig {
  REQUEST_TIMEOUT : Z;
  MAX_RETRIES : Z
}.

(** The values of lines 12-13. *)
Definition source_config : Config :=
  {| REQUEST_TIMEOUT := 60; MAX_RETRIES := 1 |}.

(** ** Prompt templates *)

Definition INITIAL_PROMPT_TEMPLATE (query : str) : str :=
  query ++ nl ++ nl
  ++ u "Write a Python function that solves this problem. Your function should be errorproof and syntactically correct. " ++ nl
  ++ u "Return ONLY the function code, nothing else. " ++ nl
  ++ u "The function should accept one parameter and return a string result. " ++ nl
  ++ u "Be sure to avoid any extra text beyond the relevant python code in your response.".

Definition RETRY_PROMPT_TEMPLATE (query error previous_code : str) : str :=
  query ++ nl ++ nl
  ++ u "The previous code failed with this error: " ++ error ++ nl ++ nl
  ++ u "Previous code was:" ++ nl
  ++ previous_code ++ nl ++ nl
  ++ u "Write a corrected Python function. Return ONLY the function code, nothing else." ++ nl
  ++ u "The function should accept one parameter and return a string result.".

(** ** The world: prompts sent and console output *)

Record World : Type := MkWorld {
  sent : list str;         (* prompts posted to the backend, oldest first *)
  stdout : list str        (* one entry per [print] call *)
}.

Definition M (A : Type) : Type := World -> Outcome A * World.

Definition ret {A} (a : A) : M A := fun w => (Ret a, w).

Definition bind {A B} (c : M A) (k : A -> M B) : M B :=
  fun w => match c w with
           | (Ret a, w') => k a w'
           | (Raise e, w') => (Raise e, w')
           end.

Definition lift {A} (o : Outcome A) : M A := fun w => (o, w).

Notation "x <- c ;; k" := (bind c (fun x => k))
  (at level 61, c at next level, right associativity).
Notation "c ;;; k" := (bind c (fun _ => k))
  (at level 61, right associativity).

Definition print (line : str) : M unit :=
  fun w => (Ret tt, {| sent := sent w; stdout := stdout w ++ [line] |}).

(** Number of completion calls made so far. *)
Definition call_count (w : World) : nat := length (sent w).

Definition rule80 (c : char) : str := repeat c 80.

(** ** Path helpers used for the problem name *)

Fixpoint after_last_slash (rev_path : str) : str :=
  match rev_path with
  | [] => []
  | c :: rest => if (c =? 47)%N then [] else c :: after_last_slash rest
  end.

(** [os.path.basename(p)] (POSIX): the text after the last slash. *)
Definition basename (p : str) : str := rev (after_last_slash (rev p)).

Fixpoint replace_aux (old new : str) (skip : nat) (s : str) : str :=
  match s with
  | [] => []
  | c :: s' =>
      match skip with
      | S k => replace_aux old new k s'
      | O => if startswith s old
             then new ++ replace_aux old new (length old - 1) s'
             else c :: replace_aux old new 0 s'
      end
  end.

(** [s.replace(old, new)] for a non-empty [old]. *)
Definition replace (s old new : str) : str := replace_aux old new 0 s.

(** ** Verdicts *)

(** The three outcomes [_print_test_results] tells apart. *)
Inductive Verdict : Type :=
  | Passed
  | FailedMismatch (actual : option str) (expected : PyVal)
  | FailedNoExecution (error : str).

(** Truth value of [error], which is [None] or a [str]. *)
Definition error_truthy (error : option str) : bool :=
  match error with
  | Some (_ :: _) => true
  | _ => false
  end.

(** f-string rendering of a value that is [None] or a [str]. *)
Definition fmt_opt (o : option str) : str :=
  match o with
  | Some s => s
  | None => u "None"
  end.

(** ** class LLMCodeTester *)

Section LLMCodeTester.

Variable py : Python.
Variable backend : Backend.
Variable cfg : Config.

Definition str_ (v : PyVal) : str := py_str (isprintable py) v.

(** Lines 60-77. *)
Definition call_ollama_api (prompt : str) : M (option str) :=
  fun w =>
    let w1 := {| sent := sent w ++ [prompt]; stdout := stdout w |} in
    match backend (sent w) prompt with
    | Success text => (Ret (Some text), w1)
    | Timeout =>
        (print (u "ERROR: Request to Ollama timed out after "
                ++ decimal (REQUEST_TIMEOUT cfg) ++ u " seconds") ;;;
         ret None) w1
    | TransportError detail =>
        (print (u "ERROR: Failed to call Ollama API: " ++ detail) ;;;
         ret None) w1
    | Malformed e => (Raise (Plain e), w1)
    end.

(** The loop of lines 109-113: the first binding, in the namespace's order,
    that is callable and whose name does not start with two underscores. *)
Fixpoint find_target_function (ns : list (str * Obj py)) : option (Obj py) :=
  match ns with
  | [] => None
  | (name, obj) :: rest =>
      if callable py obj && negb (startswith name (u "__"))
      then Some obj
      else find_target_function rest
  end.

(** Lines 119-120: [result = target_function(test_input)] and
    [return str(result), None]. *)
Definition call_target (target_function : Obj py) (test_input : PyVal)
  : Outcome (option str * option str) :=
  obind (call py target_function test_input) (fun result =>
  obind (str_obj py result) (fun s =>
  Ret (Some s, None))).

(** The body of the [try] of lines 105-120. *)
Definition execute_body (code : str) (test_input : PyVal)
  : Outcome (option str * option str) :=
  obind (exec py code) (fun execution_namespace =>
    match find_target_function execution_namespace with
    | None => Ret (None, Some (u "No callable function found in generated code"))
    | Some target_function => call_target target_function test_input
    end).

(** The handler of lines 122-123: [return None, str(e)].  [str(e)] is
    evaluated in the handler, outside the [try]: what it raises leaves the
    function. *)
Definition execute_handler (e : Raised) : Outcome (option str * option str) :=
  obind (str_exception e) (fun message => Ret (None, Some message)).

(** Lines 102-123.  The pair is [(result, error)]. *)
Definition execute_code_safely (code : str) (test_input : PyVal)
  : Outcome (option str * option str) :=
  try_except_Exception (execute_body code test_input) execute_handler.

(** Lines 162-168. *)
Definition _print_generated_code (code : str) (attempt : Z) : M unit :=
  let attempt_text :=
    if attempt >? 1 then u " (Attempt " ++ decimal attempt ++ u ")" else [] in
  print (nl ++ u "Generated Code" ++ attempt_text ++ u ":") ;;;
  print (rule80 45%N) ;;;
  print code ;;;
  print (rule80 45%N).

(** Lines 125-160.  The triple is [(generated_code, result, error)]. *)
Definition generate_and_test_code (query test_input : PyVal)
  : M (option str * option str * option str) :=
  let prompt := INITIAL_PROMPT_TEMPLATE (str_ query) in
  llm_response <- call_ollama_api prompt ;;
  match llm_response with
  | None => ret (None, None, Some (u "Failed to get response from LLM"))
  | Some llm_response =>
      let generated_code := extract_python_code llm_response in
      _print_generated_code generated_code 1 ;;;
      r <- lift (execute_code_safely generated_code test_input) ;;
      let '(result, error) := r in
      if error_truthy error && (MAX_RETRIES cfg >? 0) then
        print (nl ++ u "Execution Error: " ++ fmt_opt error) ;;;
        print (u "Retrying with error feedback..." ++ nl) ;;;
        let retry_prompt :=
          RETRY_PROMPT_TEMPLATE (str_ query) (fmt_opt error) generated_code in
        llm_response <- call_ollama_api retry_prompt ;;
        match llm_response with
        | None =>
            ret (Some generated_code, None,
                 Some (u "Failed to get response from LLM on retry"))
        | Some llm_response =>
            let generated_code := extract_python_code llm_response in
            _print_generated_code generated_code 2 ;;;
            r <- lift (execute_code_safely generated_code test_input) ;;
            let '(result, error) := r in
            ret (Some generated_code, result, error)
        end
      else ret (Some generated_code, result, error)
  end.

(** Lines 190-199. *)
Definition _print_test_header (problem_name : str)
           (query test_input expected_output : PyVal) : M unit :=
  print (nl ++ rule80 61%N) ;;;
  print (u "Testing Problem: " ++ problem_name) ;;;
  print (rule80 61%N) ;;;
  print (u "Query: " ++ str_ query) ;;;
  print (u "Test Input: " ++ str_ test_input) ;;;
  print (u "Expected Output: " ++ str_ expected_output) ;;;
  print (nl ++ rule80 61%N) ;;;
  print (u "Calling LLM to generate code...").

(** [actual_output == str(expected_output)], with [actual_output] a [str]
    or [None]. *)
Definition output_matches (actual_output : option str) (expected_output : PyVal)
  : bool :=
  match actual_output with
  | Some a => str_eqb a (str_ expected_output)
  | None => false
  end.

(** Lines 201-212. *)
Definition _print_test_results (actual_output : option str)
           (expected_output : PyVal) (error : option str) : M unit :=
  if error_truthy error then
    print (nl ++ u "Final Error: " ++ fmt_opt error) ;;;
    print (u "Result: FAILED (Could not execute code)" ++ nl)
  else if output_matches actual_output expected_output then
    print (nl ++ u "Actual Output: " ++ fmt_opt actual_output) ;;;
    print (u "Result: PASSED " ++ [226; 339; 8220]%N ++ nl)
  else
    print (nl ++ u "Actual Output: " ++ fmt_opt actual_output) ;;;
    print (u "Expected Output: " ++ str_ expected_output) ;;;
    print (u "Result: FAILED (Output mismatch)" ++ nl).

(** The branch [_print_test_results] takes, as a value. *)
Definition verdict (actual_output : option str) (expected_output : PyVal)
           (error : option str) : Verdict :=
  if error_truthy error then FailedNoExecution (fmt_opt error)
  else if output_matches actual_output expected_output then Passed
  else FailedMismatch actual_output expected_output.

(** The validation of line 177. *)
Definition valid_problem (query test_input expected_output : PyVal) : bool :=
  truthy query && negb (is_None test_input) && negb (is_None expected_output).

(** Lines 170-188. *)
Definition process_single_problem (problem_name : str) (problem_data : dict)
  : M unit :=
  let query := dict_get problem_data (u "query") in
  let test_input := dict_get problem_data (u "test_input") in
  let expected_output := dict_get problem_data (u "test_output") in
  if negb (valid_problem query test_input expected_output) then
    print (u "ERROR: Invalid problem data for " ++ problem_name ++ nl)
  else
    _print_test_header problem_name query test_input expected_output ;;;
    r <- generate_and_test_code query test_input ;;
    let '(code, actual_output, error) := r in
    _print_test_results actual_output expected_output error.

Definition required_keys : list str :=
  [u "query"; u "test_input"; u "test_output"].

(** Lines 232-235.  Only a [dict] has [keys]. *)
Definition _is_single_problem_format (data : PyVal) : Outcome bool :=
  match data with
  | VDict d => Ret (forallb (has_key d) required_keys)
  | _ => Raise (AttributeError data (u "keys"))
  end.

(** Lines 237-241, over [data.items()]. *)
Fixpoint _process_multiple_problems (items : dict) : M unit :=
  match items with
  | [] => ret tt
  | (problem_key, problem_data) :: rest =>
      match problem_data with
      | VDict d => process_single_problem problem_key d
      | _ => ret tt
      end ;;;
      _process_multiple_problems rest
  end.

(** The two handlers of lines 227-230 around a body.  The f-string of a
    handler evaluates [str(e)] before anything is printed. *)
Definition try_except_file (file_path : str) (body : M unit) : M unit :=
  fun w =>
    match body w with
    | (Ret tt, w') => (Ret tt, w')
    | (Raise e, w') =>
        match raised_kind e with
        | JSONDecodeError =>
            (message <- lift (str_exception e) ;;
             print (u "ERROR: Invalid JSON in " ++ file_path ++ u ": "
                    ++ message ++ nl)) w'
        | OtherException =>
            (message <- lift (str_exception e) ;;
             print (u "ERROR: Failed to process " ++ file_path ++ u ": "
                    ++ message ++ nl)) w'
        | BaseExceptionOnly => (Raise e, w')
        end
    end.

(** Lines 214-230.  [loaded] is the outcome of opening the file and of
    [json.load]. *)
Definition process_json_file (file_path : str) (loaded : LibOutcome PyVal) : M unit :=
  try_except_file file_path
    (data <- lift (of_lib loaded) ;;
     single <- lift (_is_single_problem_format data) ;;
     match data with
     | VDict d =>
         if single then
           let problem_name := replace (basename file_path) (u ".json") [] in
           process_single_problem problem_name d
         else _process_multiple_problems d
     | _ => lift (Raise (AttributeError data (u "items")))
     end).

End LLMCodeTester.

(** The three places where the [try] body of [execute_code_safely] can raise
    [e]: loading the code, calling the selected function, and [str] of what
    it returned. *)
Inductive fails (py : Python) (code : str) (test_input : PyVal) (e : Raised) : Prop :=
  | fails_load :
      exec py code = Raise e ->
      fails py code test_input e
  | fails_call ns f :
      exec py code = Ret ns ->
      find_target_function py ns = Some f ->
      call py f test_input = Raise e ->
      fails py code test_input e
  | fails_str ns f result :
      exec py code = Ret ns ->
      find_target_function py ns = Some f ->
      call py f test_input = Ret result ->
      str_obj py result = Raise e ->
      fails py code test_input e.

(** ** Console transcripts *)

(** The lines [_print_generated_code] prints. *)
Definition generated_code_lines (code : str) (attempt : Z) : list str :=
  [nl ++ u "Generated Code"
      ++ (if attempt >? 1 then u " (Attempt " ++ decimal attempt ++ u ")" else [])
      ++ u ":";
   rule80 45%N; code; rule80 45%N].

(** The line [call_ollama_api] prints when the backend does not answer. *)
Definition api_failure_line (cfg : Config) (o : CompletionOutcome) : list str :=
  match o with
  | Timeout =>
      [u "ERROR: Request to Ollama timed out after "
       ++ decimal (REQUEST_TIMEOUT cfg) ++ u " seconds"]
  | TransportError detail => [u "ERROR: Failed to call Ollama API: " ++ detail]
  | _ => []
  end.

(** The two lines printed before the retry prompt is sent. *)
Definition retry_lines (error : str) : list str :=
  [nl ++ u "Execution Error: " ++ error;
   u "Retrying with error feedback..." ++ nl].

(** The lines [_print_test_header] prints. *)
Definition header_lines (py : Python) (problem_name : str)
           (query test_input expected_output : PyVal) : list str :=
  [nl ++ rule80 61%N;
   u "Testing Problem: " ++ problem_name;
   rule80 61%N;
   u "Query: " ++ str_ py query;
   u "Test Input: " ++ str_ py test_input;
   u "Expected Output: " ++ str_ py expected_output;
   nl ++ rule80 61%N;
   u "Calling LLM to generate code..."].

(** The lines [_print_test_results] prints. *)
Definition result_lines (py : Python) (actual_output : option str)
           (expected_output : PyVal) (error : option str) : list str :=
  if error_truthy error then
    [nl ++ u "Final Error: " ++ fmt_opt error;
     u "Result: FAILED (Could not execute code)" ++ nl]
  else if output_matches py actual_output expected_output then
    [nl ++ u "Actual Output: " ++ fmt_opt actual_output;
     u "Result: PASSED " ++ [226; 339; 8220]%N ++ nl]
  else
    [nl ++ u "Actual Output: " ++ fmt_opt actual_output;
     u "Expected Output: " ++ str_ py expected_output;
     u "Result: FAILED (Output mismatch)" ++ nl].

(** The closing "Result:" line of each verdict. *)
Definition verdict_line (v : Verdict) : str :=
  match v with
  | Passed => u "Result: PASSED " ++ [226; 339; 8220]%N ++ nl
  | FailedMismatch _ _ => u "Result: FAILED (Output mismatch)" ++ nl
  | FailedNoExecution _ => u "Result: FAILED (Could not execute code)" ++ nl
  end.

(** The line printed for an invalid record. *)
Definition invalid_line (problem_name : str) : str :=
  u "ERROR: Invalid problem data for " ++ problem_name ++ nl.

(** Appending console lines to a world. *)
Definition printed (w : World) (lines : list str) : World :=
  {| sent := sent w; stdout := stdout w ++ lines |}.

(** Recording one more prompt. *)
Definition posted (w : World) (prompt : str) : World :=
  {| sent := sent w ++ [prompt]; stdout := stdout w |}.

(** The world when the retry prompt is about to be sent. *)
Definition before_retry (py : Python) (w : World) (query : PyVal) (code error : str)
  : World :=
  printed (posted w (INITIAL_PROMPT_TEMPLATE (str_ py query)))
          (generated_code_lines code 1 ++ retry_lines error).

(** ** A scripted backend and a table-driven interpreter for the examples *)

Module Mock.

(** The backend answers the [n]-th call with the [n]-th entry of [script]
    and times out afterwards. *)
Definition scripted (script : list CompletionOutcome) : Backend :=
  fun history _ => nth (length history) script Timeout.

Definition w0 : World := {| sent := []; stdout := [] |}.

Inductive MObj : Type :=
  | MBuiltins                                     (* the __builtins__ dict *)
  | MValue (shown : str)                          (* an object and its str *)
  | MFunction (body : PyVal -> Outcome MObj).

Definition ValueError (msg : str) : Exc := MkExc OtherException msg.
Definition TypeError (msg : str) : Exc := MkExc OtherException msg.
Definition SyntaxError (msg : str) : Exc := MkExc OtherException msg.
Definition SystemExit (msg : str) : Exc := MkExc BaseExceptionOnly msg.

Definition code_boom : str :=
  u "def f(x):" ++ nl ++ u "  raise ValueError('boom')".

Definition code_exit : str :=
  u "def f(x):" ++ nl ++ u "  raise SystemExit('boom')".

Definition code_g_then_f : str :=
  u "def g(x):" ++ nl ++ u "  return 'from g'" ++ nl
  ++ u "def f(x):" ++ nl ++ u "  return 'from f'".

Definition code_square : str :=
  u "def square(x):" ++ nl ++ u "    return str(x * x)".

Definition code_nope : str :=
  u "def f(x):" ++ nl ++ u "    return 'nope'".

Definition square (x : PyVal) : Outcome MObj :=
  match x with
  | VInt z => Ret (MValue (decimal (z * z)))
  | VBool b => Ret (MValue (if b then u "1" else u "0"))
  | _ => Raise (TypeError (u "unsupported operand type(s) for *"))
  end.

Definition builtins : str * MObj := (u "__builtins__", MBuiltins).

(** What [exec] leaves in the namespace for the programs above and for the
    empty program; any other text is refused. *)
Definition mexec (code : str) : Outcome (list (str * MObj)) :=
  if str_eqb code [] then Ret [builtins]
  else if str_eqb code code_boom then
    Ret [builtins; (u "f", MFunction (fun _ => Raise (ValueError (u "boom"))))]
  else if str_eqb code code_exit then
    Ret [builtins; (u "f", MFunction (fun _ => Raise (SystemExit (u "boom"))))]
  else if str_eqb code code_g_then_f then
    Ret [builtins;
         (u "g", MFunction (fun _ => Ret (MValue (u "from g"))));
         (u "f", MFunction (fun _ => Ret (MValue (u "from f"))))]
  else if str_eqb code code_square then
    Ret [builtins; (u "square", MFunction square)]
  else if str_eqb code code_nope then
    Ret [builtins; (u "f", MFunction (fun _ => Ret (MValue (u "nope"))))]
  else Raise (SyntaxError (u "invalid syntax")).

Definition mcallable (o : MObj) : bool :=
  match o with MFunction _ => true | _ => false end.

Definition mcall (o : MObj) (arg : PyVal) : Outcome MObj :=
  match o with
  | MFunction body => body arg
  | _ => Raise (TypeError (u "object is not callable"))
  end.

Definition mstr (o : MObj) : Outcome str :=
  match o with
  | MValue shown => Ret shown
  | MBuiltins => Ret (u "{...}")
  | MFunction _ => Ret (u "<function>")
  end.

Definition python : Python :=
  {| Obj := MObj;
     exec := mexec;
     callable := mcallable;
     call := mcall;
     str_obj := mstr;
     isprintable := fun c => ((160 <? c) && negb (c =? 173) && (c <? 256))%N |}.

(** A model answer wrapped in a tagged fence. *)
Definition fenced (code : str) : str :=
  u "```python" ++ nl ++ code ++ nl ++ u "```".

End Mock.

(** ** The rest of the class: health probe, discovery, run, and main *)

(** Lines 10-11. *)
Definition OLLAMA_HOST : str := u "http://host.docker.internal:11434".
Definition MODEL_NAME : str := u "phi4-mini".

(** The attributes [__init__] sets (lines 40-44). *)
Record Tester : Type := MkTester {
  ollama_host : str;
  model_name : str
}.

Definition api_url (t : Tester) : str := ollama_host t ++ u "/api/generate".

(** [LLMCodeTester()] with the default arguments. *)
Definition default_tester : Tester :=
  {| ollama_host := OLLAMA_HOST; model_name := MODEL_NAME |}.

(** What the process finds outside itself: the answer of the health endpoint
    ([requests.get(url, timeout=5)] followed by [raise_for_status()]), the
    directory listing, the decoded content of a file, and the two path
    tests. *)
Record Env : Type := MkEnv {
  health : str -> LibOutcome unit;
  listdir : str -> LibOutcome (list str);
  load_json : str -> LibOutcome PyVal;
  path_exists : str -> bool;
  path_isdir : str -> bool
}.

(** [sys.exit(status)] raises [SystemExit(status)]. *)
Definition sys_exit (status : Z) : Raised :=
  Plain (MkExc BaseExceptionOnly (decimal status)).

(** [s.endswith(suffix)] *)
Definition endswith (s suffix : str) : bool := startswith (rev s) (rev suffix).

(** [os.path.join(a, b)] (POSIX). *)
Definition path_join (a b : str) : str :=
  if startswith b (u "/") then b
  else if str_eqb a [] || endswith a (u "/") then a ++ b
  else a ++ u "/" ++ b.

(** [a <= b] on [str]: lexicographic on code points. *)
Fixpoint str_leb (a b : str) : bool :=
  match a, b with
  | [], _ => true
  | _ :: _, [] => false
  | x :: a', y :: b' =>
      if (x <? y)%N then true
      else if (y <? x)%N then false
      else str_leb a' b'
  end.

Fixpoint insert_sorted (x : str) (l : list str) : list str :=
  match l with
  | [] => [x]
  | y :: l' => if str_leb x y then x :: l else y :: insert_sorted x l'
  end.

(** [sorted(names)]: the ascending arrangement of the names. *)
Definition sorted (names : list str) : list str :=
  fold_right insert_sorted [] names.

Section Runner.

Variable py : Python.
Variable backend : Backend.
Variable cfg : Config.
Variable env : Env.

(** Lines 46-58. *)
Definition check_ollama_health (t : Tester) : M bool :=
  fun w =>
    match health env (ollama_host t ++ u "/api/tags") with
    | Ret _ =>
        (print (u "Ollama connection verified successfully" ++ nl) ;;;
         ret true) w
    | Raise e =>
        if is_Exception e then
          (print (u "ERROR: Cannot connect to Ollama at " ++ ollama_host t) ;;;
           print (u "Details: " ++ exc_str e) ;;;
           print (u "Please ensure Ollama is running on your host machine." ++ nl) ;;;
           ret false) w
        else (Raise (Plain e), w)
    end.

(** Lines 269-274. *)
Definition _print_startup_info (t : Tester) (test_cases_directory : str) : M unit :=
  print (nl ++ u "Starting LLM Code Tester") ;;;
  print (u "Test Cases Directory: " ++ test_cases_directory) ;;;
  print (u "Using Model: " ++ model_name t) ;;;
  print (u "Ollama Host: " ++ ollama_host t).

(** Lines 276-283. *)
Definition _discover_json_files (directory : str) : M (list str) :=
  fun w =>
    match listdir env directory with
    | Ret all_files => (Ret (filter (fun f => endswith f (u ".json")) all_files), w)
    | Raise e =>
        if is_Exception e then
          (print (u "ERROR: Cannot read directory " ++ directory ++ u ": "
                  ++ exc_str e) ;;;
           ret []) w
        else (Raise (Plain e), w)
    end.

(** Lines 285-289. *)
Definition _print_completion_message : M unit :=
  print (rule80 61%N) ;;;
  print (u "All tests completed!") ;;;
  print (rule80 61%N ++ nl).

(** The loop of lines 262-264 over the sorted names. *)
Fixpoint process_files (test_cases_directory : str) (json_files : list str) : M unit :=
  match json_files with
  | [] => ret tt
  | json_file :: rest =>
      let file_path := path_join test_cases_directory json_file in
      process_json_file py backend cfg file_path (load_json env file_path) ;;;
      process_files test_cases_directory rest
  end.

(** Lines 243-267. *)
Definition run (t : Tester) (test_cases_directory : str) : M unit :=
  _print_startup_info t test_cases_directory ;;;
  healthy <- check_ollama_health t ;;
  if negb healthy then lift (Raise (sys_exit 1))
  else
    json_files <- _discover_json_files test_cases_directory ;;
    match json_files with
    | [] =>
        print (u "WARNING: No JSON files found in " ++ test_cases_directory ++ nl)
    | _ :: _ =>
        print (u "Found " ++ decimal (Z.of_nat (length json_files))
               ++ u " JSON file(s)" ++ nl) ;;;
        process_files test_cases_directory (sorted json_files) ;;;
        _print_completion_message
    end.

(** Lines 292-311.  [argv] is [sys.argv]. *)
Definition main (argv : list str) : M unit :=
  if negb (Nat.eqb (length argv) 2) then
    print (u "Usage: python app.py <test_cases_directory>") ;;;
    print (u "Example: python app.py /test_cases") ;;;
    lift (Raise (sys_exit 1))
  else
    let test_cases_directory := nth 1 argv [] in
    if negb (path_exists env test_cases_directory) then
      print (u "ERROR: Directory not found: " ++ test_cases_directory) ;;;
      lift (Raise (sys_exit 1))
    else if negb (path_isdir env test_cases_directory) then
      print (u "ERROR: Path is not a directory: " ++ test_cases_directory) ;;;
      lift (Raise (sys_exit 1))
    else run default_tester test_cases_directory.

End Runner.

(** The lines printed at start-up and at the end of a run. *)
Definition startup_lines (t : Tester) (test_cases_directory : str) : list str :=
  [nl ++ u "Starting LLM Code Tester";
   u "Test Cases Directory: " ++ test_cases_directory;
   u "Using Model: " ++ model_name t;
   u "Ollama Host: " ++ ollama_host t].

Definition completion_lines : list str :=
  [rule80 61%N; u "All tests completed!"; rule80 61%N ++ nl].

(** The lines of a failed health probe. *)
Definition unhealthy_lines (t : Tester) (e : Exc) : list str :=
  [u "ERROR: Cannot connect to Ollama at " ++ ollama_host t;
   u "Details: " ++ exc_str e;
   u "Please ensure Ollama is running on your host machine." ++ nl].

(** [e] left [execute_code_safely], run on [test_input] with the code
    extracted from an answer of the backend. *)
Definition leaves_generated_code (py : Python) (backend : Backend)
           (test_input : PyVal) (e : Raised) : Prop :=
  exists history prompt text,
    backend history prompt = Success text
    /\ execute_code_safely py (extract_python_code text) test_input = Raise e.

(** The completion call raised [e]. *)
Definition call_raised (backend : Backend) (e : Raised) : Prop :=
  exists history prompt e0, backend history prompt = Malformed e0 /\ e = Plain e0.

(** The [test_input] of a record of a decoded file: of the top-level object,
    or of one of its object-valued entries. *)
Definition input_of_file (loaded : LibOutcome PyVal) (test_input : PyVal) : Prop :=
  match loaded with
  | Ret (VDict d) =>
      test_input = dict_get d (u "test_input")
      \/ exists key r, In (key, VDict r) d /\ test_input = dict_get r (u "test_input")
  | _ => False
  end.

(** A backend whose answers, once extracted, never let an exception out of
    [execute_code_safely], and whose failures other than request exceptions
    are instances of [Exception]. *)
Definition safe_answers (py : Python) (backend : Backend) : Prop :=
  (forall history prompt text test_input e,
      backend history prompt = Success text ->
      execute_code_safely py (extract_python_code text) test_input <> Raise e)
  /\ (forall history prompt e,
         backend history prompt = Malformed e -> is_Exception e = true).

(** A file system for the examples: one directory, [/cases], with two
    problem files, a file that is not JSON and a text file. *)
Module MockEnv.

Definition square_problem : PyVal :=
  VDict [(u "query", VStr (u "Square the number")); (u "test_input", VInt 5);
         (u "test_output", VStr (u "25"))].

Definition load (path : str) : LibOutcome PyVal :=
  if str_eqb path (u "/cases/a.json") then Ret square_problem
  else if str_eqb path (u "/cases/b.json") then
    Ret (VDict [(u "first", square_problem); (u "note", VStr (u "text"))])
  else if str_eqb path (u "/cases/c.json") then
    Raise (MkExc JSONDecodeError (u "Expecting value: line 1 column 1 (char 0)"))
  else Raise (MkExc OtherException (u "[Errno 2] No such file or directory")).

Definition files (directory : str) : LibOutcome (list str) :=
  if str_eqb directory (u "/cases")
  then Ret [u "c.json"; u "notes.txt"; u "a.json"; u "b.json"]
  else if str_eqb directory (u "/empty") then Ret []
  else Raise (MkExc OtherException (u "[Errno 2] No such file or directory")).

Definition is_directory (path : str) : bool :=
  str_eqb path (u "/cases") || str_eqb path (u "/empty").

Definition env (healthy : bool) : Env :=
  {| health := fun _ => if healthy then Ret tt
                        else Raise (MkExc OtherException (u "Connection refused"));
     listdir := files;
     load_json := load;
     path_exists := fun p => is_directory p || str_eqb p (u "/cases/a.json");
     path_isdir := is_directory |}.

(** A backend that always answers with the squaring function. *)
Definition squaring : Backend :=
  fun _ _ => Success (Mock.fenced Mock.code_square).

End MockEnv.

(** An interpreter that also knows a function raising an exception without
    message, and a configuration without retry. *)
Module MockSilent.

Definition code_silent : str :=
  u "def f(x):" ++ nl ++ u "  raise ValueError()".

Definition python : Python :=
  {| Obj := Mock.MObj;
     exec := fun code =>
               if str_eqb code code_silent then
                 Ret [Mock.builtins;
                      (u "f", Mock.MFunction (fun _ => Raise (Mock.ValueError [])))]
               else Mock.mexec code;
     callable := Mock.mcallable;
     call := Mock.mcall;
     str_obj := Mock.mstr;
     isprintable := isprintable Mock.python |}.

Definition no_retry_config : Config :=
  {| REQUEST_TIMEOUT := 60; MAX_RETRIES := 0 |}.

End MockSilent.

(** The same environment with another directory listing. *)
Definition with_listing (env : Env) (names : list str) : Env :=
  {| health := health env;
     listdir := fun _ => Ret names;
     load_json := load_json env;
     path_exists := path_exists env;
     path_isdir := path_isdir env |}.

(** An environment whose file reads raise instances of [Exception] only. *)
Definition reads_raise_Exceptions (env : Env) : Prop :=
  forall path e, load_json env path = Raise e -> is_Exception e = true.

(** The warning and the count printed by [run]. *)
Definition no_files_line (test_cases_directory : str) : str :=
  u "WARNING: No JSON files found in " ++ test_cases_directory ++ nl.

Definition found_line (json_files : list str) : str :=
  u "Found " ++ decimal (Z.of_nat (length json_files)) ++ u " JSON file(s)" ++ nl.

Definition healthy_line : str := u "Ollama connection verified successfully" ++ nl.

(** An interpreter that knows the squaring function only. *)
Module MockSquare.

Definition mexec (code : str) : Outcome (list (str * Mock.MObj)) :=
  if str_eqb code Mock.code_square then
    Ret [Mock.builtins; (u "square", Mock.MFunction Mock.square)]
  else Raise (Mock.SyntaxError (u "invalid syntax")).

Definition python : Python :=
  {| Obj := Mock.MObj;
     exec := mexec;
     callable := Mock.mcallable;
     call := Mock.mcall;
     str_obj := Mock.mstr;
     isprintable := isprintable Mock.python |}.

End MockSquare.

(** An interpreter that knows a program with two exception classes whose
    [__str__] raise: [f] raises [E()], [str] of an [E] raises [F()], and
    [str] of an [F] raises [ValueError('inner')]. *)
Module MockUnprintable.

Definition code_unprintable : str :=
  u "def f(x):" ++ nl ++ u "  raise E()" ++ nl
  ++ u "class F(Exception):" ++ nl
  ++ u "  def __str__(self):" ++ nl ++ u "    raise ValueError('inner')" ++ nl
  ++ u "class E(Exception):" ++ nl
  ++ u "  def __str__(self):" ++ nl ++ u "    raise F()".

Definition F_instance : Raised :=
  Unprintable OtherException (Plain (Mock.ValueError (u "inner"))).

Definition E_instance : Raised := Unprintable OtherException F_instance.

Inductive UObj : Type :=
  | UBuiltins
  | UFunction (body : PyVal -> Outcome UObj)
  | UInstance (e : Raised).                       (* an exception object *)

Definition uexec (code : str) : Outcome (list (str * UObj)) :=
  if str_eqb code code_unprintable then
    Ret [(u "__builtins__", UBuiltins);
         (u "f", UFunction (fun _ => Raise E_instance));
         (u "F", UFunction (fun _ => Ret (UInstance F_instance)));
         (u "E", UFunction (fun _ => Ret (UInstance E_instance)))]
  else Raise (Plain (Mock.SyntaxError (u "invalid syntax"))).

Definition python : Python :=
  {| Obj := UObj;
     exec := uexec;
     callable := fun o => match o with UFunction _ => true | _ => false end;
     call := fun o arg =>
               match o with
               | UFunction body => body arg
               | _ => Raise (Plain (Mock.TypeError (u "object is not callable")))
               end;
     str_obj := fun o =>
                  match o with
                  | UInstance e => str_exception e
                  | UBuiltins => Ret (u "{...}")
                  | UFunction _ => Ret (u "<function>")
                  end;
     isprintable := isprintable Mock.python |}.

(** A backend that always answers with that program. *)
Definition answering : Backend :=
  fun _ _ => Success (Mock.fenced code_unprintable).

End MockUnprintable.

(** * Properties *)

(** ** Rendering of values *)

Example str_of_scalars :
  py_str (fun _ => true) VNone = u "None"
  /\ py_str (fun _ => true) (VBool false) = u "False"
  /\ py_str (fun _ => true) (VInt 0) = u "0"
  /\ py_str (fun _ => true) (VInt (-25)) = u "-25"
  /\ py_str (fun _ => true) (VStr (u "25")) = u "25".
Proof. vm_compute. repeat split; reflexivity. Qed.

Example str_of_containers :
  py_str (fun _ => true)
         (VList [VStr (u "it's"); VInt 1; VBool true; VNone;
                 VDict [(u "a", VStr (u "x" ++ nl))]])
  = [91; 34]%N ++ u "it's" ++ [34]%N ++ u ", 1, True, None, {'a': 'x\n'}]".
Proof. vm_compute. reflexivity. Qed.

Example problem_name_of_path :
  replace (basename (u "/test_cases/square.json")) (u ".json") [] = u "square".
Proof. vm_compute. reflexivity. Qed.

(** ** Searching *)

Lemma find_at_range (s sub : str) (i : Z) :
  find_at s sub i = -1 \/ i <= find_at s sub i <= i + len s.
Proof.
  revert i. induction s as [|c s IH]; intros i; cbn [find_at].
  - destruct (startswith [] sub); [right; unfold len; simpl; lia | now left].
  - destruct (startswith (c :: s) sub).
    + right. unfold len. simpl length. lia.
    + destruct (IH (i + 1)) as [H|H]; [now left|right].
      unfold len in *. simpl length. lia.
Qed.

Lemma find_at_none_shift (s sub : str) (i j : Z) :
  0 <= i -> find_at s sub i = -1 -> find_at s sub j = -1.
Proof.
  revert i j. induction s as [|c s IH]; intros i j Hi; cbn [find_at].
  - destruct (startswith [] sub); [lia | reflexivity].
  - destruct (startswith (c :: s) sub); [lia|].
    apply IH. lia.
Qed.

Lemma find_at_none_skipn (s sub : str) (n : nat) (i j : Z) :
  0 <= i -> find_at s sub i = -1 -> find_at (skipn n s) sub j = -1.
Proof.
  revert s i j. induction n as [|n IH]; intros s i j Hi H; simpl.
  - eapply find_at_none_shift; eauto.
  - destruct s as [|c s]; [eapply find_at_none_shift; eauto|].
    cbn [find_at] in H. destruct (startswith (c :: s) sub); [lia|].
    eapply (IH s (i + 1)); [lia | exact H].
Qed.

(** Once no occurrence starts at or after [a], none starts after [b >= a]. *)
Lemma find_none_mono (s sub : str) (a b : Z) :
  0 <= a <= b -> find s sub a = -1 -> find s sub b = -1.
Proof.
  intros Hab. unfold find.
  destruct (len s <? b) eqn:Hb; [reflexivity|].
  apply Z.ltb_ge in Hb.
  destruct (len s <? a) eqn:Ha; [apply Z.ltb_lt in Ha; lia|].
  intros H.
  replace (Z.to_nat b) with ((Z.to_nat b - Z.to_nat a) + Z.to_nat a)%nat by lia.
  rewrite <- skipn_skipn.
  eapply find_at_none_skipn; [|exact H]. lia.
Qed.

(** An occurrence of [sub2] is an occurrence of each of its prefixes. *)
Lemma startswith_prefix (s p q : str) :
  startswith s (p ++ q) = true -> startswith s p = true.
Proof.
  revert s. induction p as [|a p IH]; intros s; simpl; [reflexivity|].
  destruct s as [|b s]; [discriminate|].
  intros H. apply andb_true_iff in H as [H1 H2].
  rewrite H1. simpl. now apply IH.
Qed.

Lemma find_at_prefix_le (s p q : str) (i : Z) :
  0 <= i ->
  find_at s (p ++ q) i <> -1 ->
  find_at s p i <> -1 /\ find_at s p i <= find_at s (p ++ q) i.
Proof.
  revert i. induction s as [|c s IH]; intros i Hi; cbn [find_at].
  - destruct (startswith [] (p ++ q)) eqn:E; [|congruence].
    rewrite (startswith_prefix _ _ _ E). intros H; split; [exact H|lia].
  - destruct (startswith (c :: s) p) eqn:Ep.
    + intros H. split; [lia|].
      destruct (startswith (c :: s) (p ++ q)); [lia|].
      destruct (find_at_range s (p ++ q) (i + 1)); lia.
    + destruct (startswith (c :: s) (p ++ q)) eqn:E.
      * rewrite (startswith_prefix _ _ _ E) in Ep. discriminate.
      * apply IH. lia.
Qed.

Lemma find_0 (s sub : str) : find s sub 0 = find_at s sub 0.
Proof.
  unfold find. destruct (len s <? 0) eqn:E; [|reflexivity].
  apply Z.ltb_lt in E. unfold len in E. lia.
Qed.

Lemma python_fence_split : python_fence = fence ++ u "python".
Proof. reflexivity. Qed.

(** ** extract_python_code *)

Example extract_tagged :
  extract_python_code (u "Here:" ++ nl ++ Mock.fenced (u "def f(x): return x")
                       ++ nl ++ u "bye")
  = u "def f(x): return x".
Proof. vm_compute. reflexivity. Qed.

Example extract_tagged_first :
  extract_python_code (u "``` x = 1 ``` and ```python y ```") = u "y".
Proof. vm_compute. reflexivity. Qed.

Example extract_plain_text :
  extract_python_code (u "  def f(x): return x " ++ nl) = u "def f(x): return x".
Proof. vm_compute. reflexivity. Qed.

(** C7.  A fence that opens and never closes: the text holds a fence marker
    and no further marker after the first one.  Both fenced rules then fall
    through (the tagged rule as well, when the opening fence is tagged) and
    the whole text, trimmed, is returned. *)
Theorem extract_unterminated_fence (text : str) :
  find text fence 0 <> -1 ->
  find text fence (find text fence 0 + 3) = -1 ->
  extract_python_code text = strip text.
Proof.
  intros Hopen Hnever.
  destruct text as [|c text]; [vm_compute in Hopen; congruence|].
  unfold extract_python_code. cbv beta iota.
  remember (c :: text) as t eqn:Et. clear Et.
  assert (Hi : 0 <= find t fence 0).
  { rewrite find_0 in *. destruct (find_at_range t fence 0); lia. }
  assert (Htag : forall j, j = find t python_fence 0 -> j <> -1 ->
                           find t fence (j + len python_fence) = -1).
  { intros j -> Hj. rewrite find_0 in Hj.
    rewrite python_fence_split in Hj.
    destruct (find_at_prefix_le t fence (u "python") 0 ltac:(lia) Hj) as [_ Hle].
    apply (find_none_mono t fence (find t fence 0 + 3)); [|exact Hnever].
    rewrite !find_0. rewrite python_fence_split.
    change (len (fence ++ u "python")) with 9. rewrite find_0 in Hi. lia. }
  unfold contains.
  destruct (find t python_fence 0 =? -1) eqn:Ej; cbn [negb].
  - destruct (find t fence 0 =? -1) eqn:Ei; cbn [negb]; [reflexivity|].
    rewrite Hnever. reflexivity.
  - apply Z.eqb_neq in Ej.
    rewrite (Htag _ eq_refl Ej). cbn [Z.eqb negb].
    destruct (find t fence 0 =? -1) eqn:Ei; cbn [negb]; [reflexivity|].
    rewrite Hnever. reflexivity.
Qed.

(** The input of the specification's test: an opening tagged fence, a newline
    and [def f(x): return x], with no closing fence. *)
Lemma extract_unterminated_fence_witness :
  let text := u "```python" ++ nl ++ u "def f(x): return x" in
  find text fence 0 <> -1
  /\ find text fence (find text fence 0 + 3) = -1
  /\ extract_python_code text = strip text
  /\ strip text = text.
Proof.
  intros text.
  assert (H1 : find text fence 0 <> -1) by (vm_compute; discriminate).
  assert (H2 : find text fence (find text fence 0 + 3) = -1) by (vm_compute; reflexivity).
  split; [exact H1|]. split; [exact H2|].
  split; [apply (extract_unterminated_fence text H1 H2) | vm_compute; reflexivity].
Defined.

(** An unterminated tagged fence sends the text to the plain rule, whatever
    stands before it: the result is the one of lines 93-100 alone. *)
Lemma extract_unterminated_tagged_fence (text : str) :
  find text python_fence 0 <> -1 ->
  find text fence (find text python_fence 0 + len python_fence) = -1 ->
  extract_python_code text
  = (let start := find text fence 0 + 3 in
     let end_ := find text fence start in
     if contains text fence && negb (end_ =? -1)
     then strip (slice text start end_) else strip text).
Proof.
  intros Hopen Hnever.
  destruct text as [|c text]; [vm_compute in Hopen; congruence|].
  unfold extract_python_code. cbv beta iota zeta.
  remember (c :: text) as t eqn:Et. clear Et.
  rewrite Hnever. cbn [Z.eqb negb].
  destruct (contains t python_fence); destruct (contains t fence); cbn [andb];
    try reflexivity;
    destruct (find t fence (find t fence 0 + 3) =? -1); reflexivity.
Qed.

(** C7 as stated fails: here the tagged fence opens and never closes, and
    the text before it holds a fence marker.  The tagged rule falls through
    to the plain rule, which takes the opening of the tagged fence for the
    closing marker of the first one and returns the fragment in between, not
    the trimmed text. *)
Lemma unterminated_tagged_fence_truncated :
  let text := u "``` a ```python" ++ nl ++ u "def f(x): return x" in
  find text python_fence 0 <> -1
  /\ find text fence (find text python_fence 0 + len python_fence) = -1
  /\ extract_python_code text = u "a"
  /\ strip text = text
  /\ extract_python_code text <> strip text.
Proof.
  intros text. split; [vm_compute; discriminate|].
  split; [vm_compute; reflexivity|]. split; [vm_compute; reflexivity|].
  split; [vm_compute; reflexivity|]. vm_compute. discriminate.
Qed.

(** ** execute_code_safely *)

Section Invoker.

Variable py : Python.

Lemma find_target_function_app (pre post : list (str * Obj py)) name g :
  (forall n o, In (n, o) pre ->
               callable py o = false \/ startswith n (u "__") = true) ->
  callable py g = true ->
  startswith name (u "__") = false ->
  find_target_function py (pre ++ (name, g) :: post) = Some g.
Proof.
  intros Hpre Hg Hname. induction pre as [|[n o] pre IH]; cbn [app find_target_function].
  - now rewrite Hg, Hname.
  - destruct (Hpre n o (or_introl eq_refl)) as [H|H]; rewrite H.
    + cbn [andb]. apply IH. intros; apply Hpre; now right.
    + rewrite andb_false_r. apply IH. intros; apply Hpre; now right.
Qed.

Lemma fails_body code test_input e :
  fails py code test_input e -> execute_body py code test_input = Raise e.
Proof.
  unfold execute_body, call_target.
  intros [H | ns f H1 H2 H3 | ns f r H1 H2 H3 H4].
  - now rewrite H.
  - rewrite H1. cbn [obind]. rewrite H2, H3. reflexivity.
  - rewrite H1. cbn [obind]. rewrite H2, H3. cbn [obind]. now rewrite H4.
Qed.

Lemma body_fails code test_input e :
  execute_body py code test_input = Raise e -> fails py code test_input e.
Proof.
  unfold execute_body, call_target.
  destruct (exec py code) as [ns|e0] eqn:H1; cbn [obind].
  - destruct (find_target_function py ns) as [f|] eqn:H2; [|discriminate].
    destruct (call py f test_input) as [r|e1] eqn:H3; cbn [obind].
    + destruct (str_obj py r) as [s|e2] eqn:H4; cbn [obind]; [discriminate|].
      intros [= <-]. eapply fails_str; eauto.
    + intros [= <-]. eapply fails_call; eauto.
  - intros [= <-]. now apply fails_load.
Qed.

(** What leaves [execute_code_safely] as an exception: an exception of one
    of the three failure points that is not an [Exception], or what [str]
    raised in the handler for one that is. *)
Lemma execute_code_safely_raise code test_input e :
  execute_code_safely py code test_input = Raise e ->
  (isinstance_Exception e = false /\ fails py code test_input e)
  \/ (exists e0, fails py code test_input e0
                 /\ isinstance_Exception e0 = true
                 /\ str_exception e0 = Raise e).
Proof.
  unfold execute_code_safely, try_except_Exception, execute_handler.
  destruct (execute_body py code test_input) as [r|e0] eqn:Hb; [discriminate|].
  destruct (isinstance_Exception e0) eqn:He.
  - destruct (str_exception e0) as [message|e1] eqn:Hs; cbn [obind]; [discriminate|].
    intros [= <-]. right. exists e0.
    split; [now apply body_fails|]. split; [exact He | exact Hs].
  - intros [= <-]. left. split; [exact He | now apply body_fails].
Qed.

(** The result pair holds exactly one of a result and an error. *)
Lemma execute_code_safely_shape code test_input result error :
  execute_code_safely py code test_input = Ret (result, error) ->
  (exists s, result = Some s /\ error = None)
  \/ (exists msg, result = None /\ error = Some msg).
Proof.
  unfold execute_code_safely, try_except_Exception, execute_handler.
  destruct (execute_body py code test_input) as [r|e0] eqn:Hb.
  - intros [= ->]. revert Hb. unfold execute_body, call_target.
    destruct (exec py code) as [ns|]; cbn [obind]; [|discriminate].
    destruct (find_target_function py ns) as [f|].
    + destruct (call py f test_input) as [v|]; cbn [obind]; [|discriminate].
      destruct (str_obj py v) as [s|]; cbn [obind]; [|discriminate].
      intros [= <- <-]. left; eauto.
    + intros [= <- <-]. right; eauto.
  - destruct (isinstance_Exception e0); [|discriminate].
    destruct (str_exception e0) as [message|e1]; cbn [obind]; [|discriminate].
    intros [= <- <-]. right; eauto.
Qed.

End Invoker.

(** C9.  Loading the empty program leaves only [__builtins__] in the
    namespace; the empty extracted code is then an ordinary invocation
    failure with the "No callable function found" message, whatever the
    input. *)
Theorem empty_code_no_callable (py : Python) (b : Obj py) (test_input : PyVal) :
  exec py [] = Ret [(u "__builtins__", b)] ->
  extract_python_code [] = []
  /\ execute_code_safely py (extract_python_code []) test_input
     = Ret (None, Some (u "No callable function found in generated code")).
Proof.
  intros H. split; [reflexivity|].
  change (extract_python_code []) with (@nil char).
  unfold execute_code_safely, execute_body. rewrite H.
  cbn [obind find_target_function]. rewrite andb_false_r. reflexivity.
Qed.

Lemma empty_code_no_callable_witness :
  exec Mock.python [] = Ret [(u "__builtins__", Mock.MBuiltins)]
  /\ execute_code_safely Mock.python (extract_python_code []) (VInt 5)
     = Ret (None, Some (u "No callable function found in generated code")).
Proof.
  assert (H : exec Mock.python [] = Ret [(u "__builtins__", Mock.MBuiltins)])
    by reflexivity.
  split; [exact H|].
  exact (proj2 (empty_code_no_callable Mock.python Mock.MBuiltins (VInt 5) H)).
Defined.

(** C6.  When every binding before [g] in the namespace is not callable or
    has a name starting with two underscores, and [g] is callable with an
    ordinary name, [g] is the function called with the test input, whatever
    is defined after it. *)
Theorem first_callable_selected (py : Python) (code : str) (test_input : PyVal)
        (pre post : list (str * Obj py)) (name : str) (g : Obj py) :
  exec py code = Ret (pre ++ (name, g) :: post) ->
  (forall n o, In (n, o) pre ->
               callable py o = false \/ startswith n (u "__") = true) ->
  callable py g = true ->
  startswith name (u "__") = false ->
  execute_code_safely py code test_input
  = try_except_Exception (call_target py g test_input) execute_handler.
Proof.
  intros Hexec Hpre Hg Hname.
  unfold execute_code_safely, execute_body. rewrite Hexec. cbn [obind].
  now rewrite (find_target_function_app py pre post name g Hpre Hg Hname).
Qed.

(** Two functions, [g] then [f]: the answer is the one of [g]. *)
Lemma first_callable_selected_witness :
  let g := Mock.MFunction (fun _ => Ret (Mock.MValue (u "from g"))) in
  let f := Mock.MFunction (fun _ => Ret (Mock.MValue (u "from f"))) in
  exec Mock.python Mock.code_g_then_f
  = Ret ([Mock.builtins] ++ (u "g", g) :: [(u "f", f)])
  /\ execute_code_safely Mock.python Mock.code_g_then_f (VInt 5)
     = Ret (Some (u "from g"), None).
Proof.
  intros g f.
  assert (H : exec Mock.python Mock.code_g_then_f
              = Ret ([Mock.builtins] ++ (u "g", g) :: [(u "f", f)]))
    by (vm_compute; reflexivity).
  split; [exact H|].
  rewrite (first_callable_selected Mock.python Mock.code_g_then_f (VInt 5)
             [Mock.builtins] [(u "f", f)] (u "g") g H).
  - reflexivity.
  - intros n o [[= <- <-]|[]]. right. reflexivity.
  - reflexivity.
  - reflexivity.
Defined.

(** C4, as the code has it.  An exception raised while loading the code,
    calling the selected function or taking [str] of its result, when it is
    an instance of [Exception], is caught, and the handler evaluates
    [str(e)]: if that returns, the description is the error of the pair; if
    the exception's [__str__] raises, what it raises leaves the function. *)
Theorem exception_converted (py : Python) (code : str) (test_input : PyVal)
        (e : Raised) :
  fails py code test_input e ->
  isinstance_Exception e = true ->
  match str_exception e with
  | Ret message =>
      execute_code_safely py code test_input = Ret (None, Some message)
  | Raise e' => execute_code_safely py code test_input = Raise e'
  end.
Proof.
  intros Hf He. unfold execute_code_safely.
  rewrite (fails_body py code test_input e Hf).
  unfold try_except_Exception, execute_handler. rewrite He.
  destruct (str_exception e); reflexivity.
Qed.

(** The function that raises [ValueError('boom')]. *)
Lemma exception_converted_witness :
  fails Mock.python Mock.code_boom (VInt 5) (Mock.ValueError (u "boom"))
  /\ is_Exception (Mock.ValueError (u "boom")) = true
  /\ execute_code_safely Mock.python Mock.code_boom (VInt 5)
     = Ret (None, Some (u "boom")).
Proof.
  assert (Hf : fails Mock.python Mock.code_boom (VInt 5) (Mock.ValueError (u "boom"))).
  { eapply fails_call with (f := Mock.MFunction (fun _ => Raise (Mock.ValueError (u "boom")))).
    - vm_compute. reflexivity.
    - reflexivity.
    - reflexivity. }
  split; [exact Hf|]. split; [reflexivity|].
  exact (exception_converted Mock.python Mock.code_boom (VInt 5) _ Hf eq_refl).
Defined.

(** The same for every input. *)
Example boom_for_every_input (test_input : PyVal) :
  execute_code_safely Mock.python Mock.code_boom test_input
  = Ret (None, Some (u "boom")).
Proof. reflexivity. Qed.

(** A program the interpreter refuses: the diagnostic is the error. *)
Example syntax_error_is_error :
  execute_code_safely Mock.python (u "def f(x) return x") (VInt 5)
  = Ret (None, Some (u "invalid syntax")).
Proof. vm_compute. reflexivity. Qed.

(** A function that raises an exception whose [__str__] raises: the handler
    of line 123 is entered, and what [str(e)] raises leaves
    [execute_code_safely]. *)
Example unprintable_exception_leaves_invoker (test_input : PyVal) :
  isinstance_Exception MockUnprintable.E_instance = true
  /\ fails MockUnprintable.python MockUnprintable.code_unprintable test_input
           MockUnprintable.E_instance
  /\ execute_code_safely MockUnprintable.python MockUnprintable.code_unprintable
       test_input
     = Raise MockUnprintable.F_instance.
Proof.
  split; [reflexivity|]. split; [|vm_compute; reflexivity].
  eapply fails_call with
    (f := MockUnprintable.UFunction (fun _ => Raise MockUnprintable.E_instance)).
  - vm_compute. reflexivity.
  - reflexivity.
  - reflexivity.
Qed.

(** C4 as stated fails: a function that raises [SystemExit] is not caught by
    [except Exception], and the exception leaves [execute_code_safely]. *)
Lemma exception_not_converted :
  execute_code_safely Mock.python Mock.code_exit (VInt 5)
  = Raise (Mock.SystemExit (u "boom"))
  /\ ~ (exists outcome,
          execute_code_safely Mock.python Mock.code_exit (VInt 5) = Ret outcome).
Proof.
  assert (H : execute_code_safely Mock.python Mock.code_exit (VInt 5)
              = Raise (Mock.SystemExit (u "boom"))) by (vm_compute; reflexivity).
  split; [exact H|]. intros [o Ho]. rewrite H in Ho. discriminate.
Qed.

(** ** generate_and_test_code *)

Section Evaluator.

Variable py : Python.
Variable backend : Backend.
Variable cfg : Config.

Lemma print_eq line w : print line w = (Ret tt, printed w [line]).
Proof. reflexivity. Qed.

Lemma printed_printed w l1 l2 : printed (printed w l1) l2 = printed w (l1 ++ l2).
Proof. unfold printed. cbn [sent stdout]. now rewrite app_assoc. Qed.

Lemma printed_nil w : printed w [] = w.
Proof. destruct w. unfold printed. cbn [sent stdout]. now rewrite app_nil_r. Qed.

Lemma print_generated_code_eq code attempt w :
  _print_generated_code code attempt w
  = (Ret tt, printed w (generated_code_lines code attempt)).
Proof.
  unfold _print_generated_code, generated_code_lines, bind, print, printed.
  cbv beta iota zeta. cbn [sent stdout]. rewrite <- !app_assoc. reflexivity.
Qed.

Lemma call_ollama_api_eq prompt w :
  call_ollama_api backend cfg prompt w
  = (match backend (sent w) prompt with
     | Success text => Ret (Some text)
     | Malformed e => Raise (Plain e)
     | _ => Ret None
     end,
     printed (posted w prompt) (api_failure_line cfg (backend (sent w) prompt))).
Proof.
  unfold call_ollama_api. destruct (backend (sent w) prompt); cbn [api_failure_line].
  - now rewrite printed_nil.
  - reflexivity.
  - reflexivity.
  - now rewrite printed_nil.
Qed.

Lemma print_test_results_eq actual expected error w :
  _print_test_results py actual expected error w
  = (Ret tt, printed w (result_lines py actual expected error)).
Proof.
  unfold _print_test_results, result_lines.
  destruct (error_truthy error); [|destruct (output_matches py actual expected)];
    unfold bind, print, printed; cbv beta iota zeta; cbn [sent stdout];
    rewrite <- ?app_assoc; reflexivity.
Qed.

Lemma print_test_header_eq name query test_input expected w :
  _print_test_header py name query test_input expected w
  = (Ret tt, printed w (header_lines py name query test_input expected)).
Proof.
  unfold _print_test_header, header_lines, bind, print, printed.
  cbv beta iota zeta. cbn [sent stdout]. rewrite <- !app_assoc. reflexivity.
Qed.

(** The closing line on the console is the one of the verdict. *)
Lemma result_lines_last actual expected error :
  last (result_lines py actual expected error) []
  = verdict_line (verdict py actual expected error).
Proof.
  unfold result_lines, verdict.
  destruct (error_truthy error); [reflexivity|].
  destruct (output_matches py actual expected); reflexivity.
Qed.

(** No answer from the backend on the first call. *)
Lemma generate_no_response query test_input w :
  no_answer (backend (sent w) (INITIAL_PROMPT_TEMPLATE (str_ py query))) = true ->
  generate_and_test_code py backend cfg query test_input w
  = (Ret (None, None, Some (u "Failed to get response from LLM")),
     printed (posted w (INITIAL_PROMPT_TEMPLATE (str_ py query)))
             (api_failure_line cfg
                (backend (sent w) (INITIAL_PROMPT_TEMPLATE (str_ py query))))).
Proof.
  intros H. unfold generate_and_test_code, bind.
  rewrite call_ollama_api_eq.
  destruct (backend (sent w) (INITIAL_PROMPT_TEMPLATE (str_ py query))) as [text| |d|e];
    [discriminate | reflexivity | reflexivity | discriminate].
Qed.

(** The first call raises something other than a request exception. *)
Lemma generate_malformed query test_input w e :
  backend (sent w) (INITIAL_PROMPT_TEMPLATE (str_ py query)) = Malformed e ->
  generate_and_test_code py backend cfg query test_input w
  = (Raise (Plain e), posted w (INITIAL_PROMPT_TEMPLATE (str_ py query))).
Proof.
  intros H. unfold generate_and_test_code, bind.
  rewrite call_ollama_api_eq, H. cbn [api_failure_line]. now rewrite printed_nil.
Qed.

(** The first attempt ran and no retry follows. *)
Lemma generate_single_attempt query test_input w text result error :
  backend (sent w) (INITIAL_PROMPT_TEMPLATE (str_ py query)) = Success text ->
  execute_code_safely py (extract_python_code text) test_input = Ret (result, error) ->
  error_truthy error && (MAX_RETRIES cfg >? 0) = false ->
  generate_and_test_code py backend cfg query test_input w
  = (Ret (Some (extract_python_code text), result, error),
     printed (posted w (INITIAL_PROMPT_TEMPLATE (str_ py query)))
             (generated_code_lines (extract_python_code text) 1)).
Proof.
  intros Hb He Hr. unfold generate_and_test_code, bind, lift.
  rewrite call_ollama_api_eq, Hb. cbn [api_failure_line].
  rewrite printed_nil, print_generated_code_eq, He, Hr. reflexivity.
Qed.

(** The first invocation lets an exception through. *)
Lemma generate_first_raises query test_input w text e :
  backend (sent w) (INITIAL_PROMPT_TEMPLATE (str_ py query)) = Success text ->
  execute_code_safely py (extract_python_code text) test_input = Raise e ->
  generate_and_test_code py backend cfg query test_input w
  = (Raise e,
     printed (posted w (INITIAL_PROMPT_TEMPLATE (str_ py query)))
             (generated_code_lines (extract_python_code text) 1)).
Proof.
  intros Hb He. unfold generate_and_test_code, bind, lift.
  rewrite call_ollama_api_eq, Hb. cbn [api_failure_line].
  rewrite printed_nil, print_generated_code_eq, He. reflexivity.
Qed.

(** The retry: what follows is the second call and the second attempt. *)
Lemma generate_retry query test_input w text result error :
  backend (sent w) (INITIAL_PROMPT_TEMPLATE (str_ py query)) = Success text ->
  execute_code_safely py (extract_python_code text) test_input = Ret (result, error) ->
  error_truthy error && (MAX_RETRIES cfg >? 0) = true ->
  let code := extract_python_code text in
  let retry_prompt := RETRY_PROMPT_TEMPLATE (str_ py query) (fmt_opt error) code in
  let w1 := before_retry py w query code (fmt_opt error) in
  generate_and_test_code py backend cfg query test_input w
  = match backend (sent w1) retry_prompt with
    | Success text2 =>
        let code2 := extract_python_code text2 in
        let w2 := printed (posted w1 retry_prompt) (generated_code_lines code2 2) in
        match execute_code_safely py code2 test_input with
        | Ret (result2, error2) => (Ret (Some code2, result2, error2), w2)
        | Raise e => (Raise e, w2)
        end
    | Malformed e => (Raise (Plain e), posted w1 retry_prompt)
    | o =>
        (Ret (Some code, None, Some (u "Failed to get response from LLM on retry")),
         printed (posted w1 retry_prompt) (api_failure_line cfg o))
    end.
Proof.
  intros Hb He Hr code retry_prompt w1.
  unfold generate_and_test_code, bind, lift.
  rewrite call_ollama_api_eq, Hb. cbn [api_failure_line].
  rewrite printed_nil, print_generated_code_eq, He, Hr.
  rewrite !print_eq, !printed_printed.
  fold code. 
  change (printed (posted w (INITIAL_PROMPT_TEMPLATE (str_ py query)))
            (generated_code_lines code 1 ++ [nl ++ u "Execution Error: " ++ fmt_opt error]
             ++ [u "Retrying with error feedback..." ++ nl]))
    with w1.
  fold retry_prompt.
  rewrite call_ollama_api_eq.
  destruct (backend (sent w1) retry_prompt) as [text2| |d|e]; cbn [api_failure_line].
  - rewrite printed_nil, print_generated_code_eq. cbv zeta.
    destruct (execute_code_safely py (extract_python_code text2) test_input) as [[r2 e2]|e];
      reflexivity.
  - reflexivity.
  - reflexivity.
  - now rewrite printed_nil.
Qed.

(** The prompts one evaluation sends: the initial prompt, and the retry
    prompt when the first invocation returned a non-empty error and the
    budget is positive. *)
Lemma generate_sent query test_input w :
  sent (snd (generate_and_test_code py backend cfg query test_input w))
  = sent w
    ++ (INITIAL_PROMPT_TEMPLATE (str_ py query)
        :: match backend (sent w) (INITIAL_PROMPT_TEMPLATE (str_ py query)) with
           | Success text =>
               match execute_code_safely py (extract_python_code text) test_input with
               | Ret (_, error) =>
                   if error_truthy error && (MAX_RETRIES cfg >? 0)
                   then [RETRY_PROMPT_TEMPLATE (str_ py query) (fmt_opt error)
                                               (extract_python_code text)]
                   else []
               | Raise _ => []
               end
           | _ => []
           end).
Proof.
  destruct (backend (sent w) (INITIAL_PROMPT_TEMPLATE (str_ py query))) as [text| |d|e] eqn:Hb.
  - destruct (execute_code_safely py (extract_python_code text) test_input)
      as [[result error]|e] eqn:He.
    + destruct (error_truthy error && (MAX_RETRIES cfg >? 0)) eqn:Hr.
      * rewrite (generate_retry query test_input w text result error Hb He Hr).
        cbv zeta.
        destruct (backend (sent (before_retry py w query (extract_python_code text)
                                              (fmt_opt error))) _) as [text2| |d2|e2].
        -- destruct (execute_code_safely py (extract_python_code text2) test_input)
             as [[r2 e2]|e]; cbn [snd printed posted sent before_retry];
             now rewrite <- app_assoc.
        -- cbn [snd printed posted sent before_retry]. now rewrite <- app_assoc.
        -- cbn [snd printed posted sent before_retry]. now rewrite <- app_assoc.
        -- cbn [snd printed posted sent before_retry]. now rewrite <- app_assoc.
      * now rewrite (generate_single_attempt query test_input w text result error Hb He Hr).
    + now rewrite (generate_first_raises query test_input w text e Hb He).
  - rewrite generate_no_response; [|now rewrite Hb].
    now rewrite Hb.
  - rewrite generate_no_response; [|now rewrite Hb].
    now rewrite Hb.
  - now rewrite (generate_malformed query test_input w e Hb).
Qed.

End Evaluator.

(** C1.  With a retry budget of 1 and a first completion that succeeds: when
    the first invocation reports no error, the triple is returned at once
    after exactly one completion call, and for a result that differs from
    [str(expected_output)] [_print_test_results] prints the actual output,
    the expected output and the "FAILED (Output mismatch)" line (the
    [FailedMismatch] branch); a run that makes any further call had a first
    invocation that returned an execution error. *)
Theorem mismatch_no_retry (py : Python) (backend : Backend) (cfg : Config)
        (query test_input expected_output : PyVal) (w : World)
        (text : str) (result error : option str) :
  MAX_RETRIES cfg = 1 ->
  backend (sent w) (INITIAL_PROMPT_TEMPLATE (str_ py query)) = Success text ->
  execute_code_safely py (extract_python_code text) test_input = Ret (result, error) ->
  let run := generate_and_test_code py backend cfg query test_input w in
  (error = None ->
     fst run = Ret (Some (extract_python_code text), result, None)
     /\ sent (snd run) = sent w ++ [INITIAL_PROMPT_TEMPLATE (str_ py query)]
     /\ call_count (snd run) = S (call_count w)
     /\ forall actual, result = Some actual ->
                       actual <> str_ py expected_output ->
                       verdict py result expected_output None
                       = FailedMismatch (Some actual) expected_output
                       /\ _print_test_results py result expected_output None (snd run)
                          = (Ret tt,
                             printed (snd run)
                               [nl ++ u "Actual Output: " ++ actual;
                                u "Expected Output: " ++ str_ py expected_output;
                                u "Result: FAILED (Output mismatch)" ++ nl]))
  /\ (call_count (snd run) <> S (call_count w) ->
      exists msg, result = None /\ error = Some msg /\ msg <> []).
Proof.
  intros Hcfg Hb He run. split.
  - intros ->. subst run.
    rewrite (generate_single_attempt py backend cfg query test_input w text
               result None Hb He eq_refl).
    unfold call_count. cbn [fst snd]. cbn [printed posted sent]. rewrite length_app.
    cbn [length]. split; [reflexivity|]. split; [reflexivity|]. split; [lia|].
    intros actual -> Hne. rewrite print_test_results_eq.
    unfold verdict, result_lines, output_matches, str_eqb.
    cbn [error_truthy fmt_opt].
    destruct (list_eq_dec N.eq_dec actual (str_ py expected_output)); [contradiction|].
    split; reflexivity.
  - intros Hcount.
    destruct (error_truthy error) eqn:Et.
    + destruct (execute_code_safely_shape py _ _ _ _ He) as [(s & -> & ->)|(msg & -> & ->)];
        [discriminate|].
      exists msg. repeat split. intros ->. discriminate.
    + exfalso. apply Hcount. subst run.
      rewrite (generate_single_attempt py backend cfg query test_input w text
                 result error Hb He); [|now rewrite Et].
      unfold call_count. cbn [snd printed posted sent]. rewrite length_app.
      cbn [length]. lia.
Qed.

(** The model answers with a function that returns ['nope'] where ['25'] is
    expected. *)
Lemma mismatch_no_retry_witness :
  let backend := Mock.scripted [Success (Mock.fenced Mock.code_nope);
                                Success (Mock.fenced Mock.code_square)] in
  let query := VStr (u "Square the number") in
  let run := generate_and_test_code Mock.python backend source_config
               query (VInt 5) Mock.w0 in
  MAX_RETRIES source_config = 1
  /\ backend (sent Mock.w0) (INITIAL_PROMPT_TEMPLATE (str_ Mock.python query))
     = Success (Mock.fenced Mock.code_nope)
  /\ execute_code_safely Mock.python
       (extract_python_code (Mock.fenced Mock.code_nope)) (VInt 5)
     = Ret (Some (u "nope"), None)
  /\ fst run = Ret (Some (extract_python_code (Mock.fenced Mock.code_nope)),
                    Some (u "nope"), None)
  /\ call_count (snd run) = 1%nat
  /\ verdict Mock.python (Some (u "nope")) (VStr (u "25")) None
     = FailedMismatch (Some (u "nope")) (VStr (u "25"))
  /\ _print_test_results Mock.python (Some (u "nope")) (VStr (u "25")) None (snd run)
     = (Ret tt,
        printed (snd run)
          [nl ++ u "Actual Output: nope"; u "Expected Output: 25";
           u "Result: FAILED (Output mismatch)" ++ nl]).
Proof.
  intros backend query run.
  assert (H1 : MAX_RETRIES source_config = 1) by reflexivity.
  assert (H2 : backend (sent Mock.w0) (INITIAL_PROMPT_TEMPLATE (str_ Mock.python query))
               = Success (Mock.fenced Mock.code_nope)) by reflexivity.
  assert (H3 : execute_code_safely Mock.python
                 (extract_python_code (Mock.fenced Mock.code_nope)) (VInt 5)
               = Ret (Some (u "nope"), None)) by (vm_compute; reflexivity).
  destruct (mismatch_no_retry Mock.python backend source_config query (VInt 5)
              (VStr (u "25")) Mock.w0 _ _ _ H1 H2 H3) as [Hok _].
  destruct (Hok eq_refl) as (Ha & _ & Hc & Hd).
  split; [exact H1|]. split; [exact H2|]. split; [exact H3|].
  split; [exact Ha|]. split; [exact Hc|].
  apply Hd; [reflexivity | vm_compute; discriminate].
Defined.

(** C8.  A first completion call that does not succeed ends the evaluation
    with the "Failed to get response from LLM" error after exactly one call,
    whatever the retry budget. *)
Theorem no_response_no_retry (py : Python) (backend : Backend) (cfg : Config)
        (query test_input expected_output : PyVal) (w : World) :
  no_answer (backend (sent w) (INITIAL_PROMPT_TEMPLATE (str_ py query))) = true ->
  let run := generate_and_test_code py backend cfg query test_input w in
  fst run = Ret (None, None, Some (u "Failed to get response from LLM"))
  /\ sent (snd run) = sent w ++ [INITIAL_PROMPT_TEMPLATE (str_ py query)]
  /\ call_count (snd run) = S (call_count w)
  /\ verdict py None expected_output (Some (u "Failed to get response from LLM"))
     = FailedNoExecution (u "Failed to get response from LLM").
Proof.
  intros H run. subst run.
  rewrite (generate_no_response py backend cfg query test_input w H).
  unfold call_count. cbn [fst snd printed posted sent]. rewrite length_app.
  cbn [length]. repeat split. lia.
Qed.

(** A backend that times out, with the retry budget of the source. *)
Lemma no_response_no_retry_witness :
  let backend := Mock.scripted [Timeout; Success (Mock.fenced Mock.code_square)] in
  let query := VStr (u "Square the number") in
  let run := generate_and_test_code Mock.python backend source_config
               query (VInt 5) Mock.w0 in
  no_answer (backend (sent Mock.w0) (INITIAL_PROMPT_TEMPLATE (str_ Mock.python query)))
  = true
  /\ MAX_RETRIES source_config = 1
  /\ fst run = Ret (None, None, Some (u "Failed to get response from LLM"))
  /\ call_count (snd run) = 1%nat.
Proof.
  intros backend query run.
  assert (H : no_answer (backend (sent Mock.w0)
                           (INITIAL_PROMPT_TEMPLATE (str_ Mock.python query))) = true)
    by reflexivity.
  destruct (no_response_no_retry Mock.python backend source_config query (VInt 5)
              (VStr (u "25")) Mock.w0 H) as (Ha & _ & Hc & _).
  split; [exact H|]. split; [reflexivity|]. split; [exact Ha | exact Hc].
Defined.

(** C3, as the code has it.  With a positive retry budget and a first
    completion that succeeds, the prompts sent are the initial prompt,
    followed by the retry prompt exactly when the first invocation returned a
    non-empty error; the retry prompt carries the query, that error and the
    first code.  A successful invocation never leads to a second prompt. *)
Theorem retry_prompt_on_error (py : Python) (backend : Backend) (cfg : Config)
        (query test_input : PyVal) (w : World)
        (text : str) (result error : option str) :
  0 < MAX_RETRIES cfg ->
  backend (sent w) (INITIAL_PROMPT_TEMPLATE (str_ py query)) = Success text ->
  execute_code_safely py (extract_python_code text) test_input = Ret (result, error) ->
  sent (snd (generate_and_test_code py backend cfg query test_input w))
  = sent w
    ++ (INITIAL_PROMPT_TEMPLATE (str_ py query)
        :: (if error_truthy error
            then [RETRY_PROMPT_TEMPLATE (str_ py query) (fmt_opt error)
                                        (extract_python_code text)]
            else [])).
Proof.
  intros Hcfg Hb He.
  assert (Hpos : (MAX_RETRIES cfg >? 0) = true) by (apply Z.gtb_lt; lia).
  rewrite generate_sent, Hb, He, Hpos, andb_true_r. reflexivity.
Qed.

(** The first answer raises [ValueError('boom')]; the second prompt holds the
    error text and the first code. *)
Lemma retry_prompt_on_error_witness :
  let backend := Mock.scripted [Success (Mock.fenced Mock.code_boom);
                                Success (Mock.fenced Mock.code_square)] in
  let query := VStr (u "Square the number") in
  0 < MAX_RETRIES source_config
  /\ backend (sent Mock.w0) (INITIAL_PROMPT_TEMPLATE (str_ Mock.python query))
     = Success (Mock.fenced Mock.code_boom)
  /\ execute_code_safely Mock.python
       (extract_python_code (Mock.fenced Mock.code_boom)) (VInt 5)
     = Ret (None, Some (u "boom"))
  /\ sent (snd (generate_and_test_code Mock.python backend source_config
                  query (VInt 5) Mock.w0))
     = [INITIAL_PROMPT_TEMPLATE (u "Square the number");
        RETRY_PROMPT_TEMPLATE (u "Square the number") (u "boom") Mock.code_boom].
Proof.
  intros backend query.
  assert (H1 : 0 < MAX_RETRIES source_config) by reflexivity.
  assert (H2 : backend (sent Mock.w0) (INITIAL_PROMPT_TEMPLATE (str_ Mock.python query))
               = Success (Mock.fenced Mock.code_boom)) by reflexivity.
  assert (H3 : execute_code_safely Mock.python
                 (extract_python_code (Mock.fenced Mock.code_boom)) (VInt 5)
               = Ret (None, Some (u "boom"))) by (vm_compute; reflexivity).
  split; [exact H1|]. split; [exact H2|]. split; [exact H3|].
  rewrite (retry_prompt_on_error Mock.python backend source_config query (VInt 5)
             Mock.w0 _ _ _ H1 H2 H3).
  vm_compute. reflexivity.
Defined.

(** C3 as stated fails: the first answer runs and returns ['nope'] where
    ['25'] is expected, the retry budget is 1, and only the initial prompt is
    sent; no retry prompt with "output mismatch" exists. *)
Lemma mismatch_retry_counterexample :
  let backend := Mock.scripted [Success (Mock.fenced Mock.code_nope);
                                Success (Mock.fenced Mock.code_square)] in
  let run := generate_and_test_code Mock.python backend source_config
               (VStr (u "Square the number")) (VInt 5) Mock.w0 in
  0 < MAX_RETRIES source_config
  /\ execute_code_safely Mock.python
       (extract_python_code (Mock.fenced Mock.code_nope)) (VInt 5)
     = Ret (Some (u "nope"), None)
  /\ u "nope" <> str_ Mock.python (VStr (u "25"))
  /\ fst run = Ret (Some Mock.code_nope, Some (u "nope"), None)
  /\ sent (snd run) = [INITIAL_PROMPT_TEMPLATE (u "Square the number")]
  /\ ~ In (RETRY_PROMPT_TEMPLATE (u "Square the number") (u "output mismatch")
                                 Mock.code_nope)
          (sent (snd run)).
Proof.
  intros backend run.
  assert (Hs : sent (snd run) = [INITIAL_PROMPT_TEMPLATE (u "Square the number")])
    by (vm_compute; reflexivity).
  split; [reflexivity|]. split; [vm_compute; reflexivity|].
  split; [vm_compute; discriminate|]. split; [vm_compute; reflexivity|].
  split; [exact Hs|].
  rewrite Hs. intros [H|[]]. vm_compute in H. discriminate.
Qed.

(** The retried run of the specification's scenario B ends with [Passed]. *)
Example retry_then_pass :
  let backend := Mock.scripted [Success (Mock.fenced Mock.code_boom);
                                Success (Mock.fenced Mock.code_square)] in
  let run := generate_and_test_code Mock.python backend source_config
               (VStr (u "Square the number")) (VInt 5) Mock.w0 in
  fst run = Ret (Some Mock.code_square, Some (u "25"), None)
  /\ verdict Mock.python (Some (u "25")) (VStr (u "25")) None = Passed.
Proof. vm_compute. split; reflexivity. Qed.

(** ** process_single_problem, process_json_file *)

Lemma dict_get_missing (d : dict) (k : str) :
  has_key d k = false -> dict_get d k = VNone.
Proof.
  induction d as [|[k' v] d IH]; cbn [has_key existsb dict_get fst]; [reflexivity|].
  intros H. apply orb_false_iff in H as [H1 H2]. rewrite H1. now apply IH.
Qed.

Lemma dict_get_present (d : dict) (k : str) :
  dict_get d k <> VNone -> has_key d k = true.
Proof.
  intros H. destruct (has_key d k) eqn:E; [reflexivity|].
  now rewrite (dict_get_missing d k E) in H.
Qed.

Lemma is_None_false (v : PyVal) : v <> VNone -> is_None v = false.
Proof. destruct v; [congruence | reflexivity ..]. Qed.

Section Suite.

Variable py : Python.
Variable backend : Backend.
Variable cfg : Config.

Lemma process_single_problem_invalid name d w :
  valid_problem (dict_get d (u "query")) (dict_get d (u "test_input"))
                (dict_get d (u "test_output")) = false ->
  process_single_problem py backend cfg name d w
  = (Ret tt, printed w [invalid_line name]).
Proof.
  intros H. unfold process_single_problem. cbv zeta. rewrite H. reflexivity.
Qed.

Lemma process_single_problem_valid name d w :
  let query := dict_get d (u "query") in
  let test_input := dict_get d (u "test_input") in
  let expected_output := dict_get d (u "test_output") in
  valid_problem query test_input expected_output = true ->
  let run := generate_and_test_code py backend cfg query test_input
               (printed w (header_lines py name query test_input expected_output)) in
  process_single_problem py backend cfg name d w
  = match fst run with
    | Ret (_, actual_output, error) =>
        (Ret tt,
         printed (snd run) (result_lines py actual_output expected_output error))
    | Raise e => (Raise e, snd run)
    end.
Proof.
  intros query test_input expected_output H run.
  unfold process_single_problem. cbv zeta.
  fold query test_input expected_output. rewrite H. cbn [negb].
  unfold bind at 1. rewrite print_test_header_eq.
  unfold bind. fold run.
  destruct run as [[[[code actual] error]|e] w2]; cbn [fst snd].
  - apply print_test_results_eq.
  - reflexivity.
Qed.

Lemma missing_key_invalid d k :
  In k required_keys -> has_key d k = false ->
  valid_problem (dict_get d (u "query")) (dict_get d (u "test_input"))
                (dict_get d (u "test_output")) = false.
Proof.
  intros Hin Hk. apply dict_get_missing in Hk.
  unfold valid_problem.
  destruct Hin as [<-|[<-|[<-|[]]]]; rewrite Hk; cbn [truthy is_None negb andb].
  - reflexivity.
  - now rewrite andb_false_r.
  - now rewrite andb_false_r.
Qed.

Lemma process_multiple_problems_cons key v rest w :
  _process_multiple_problems py backend cfg ((key, v) :: rest) w
  = match v with
    | VDict d =>
        match process_single_problem py backend cfg key d w with
        | (Ret _, w') => _process_multiple_problems py backend cfg rest w'
        | (Raise e, w') => (Raise e, w')
        end
    | _ => _process_multiple_problems py backend cfg rest w
    end.
Proof.
  cbn [_process_multiple_problems]. unfold bind at 1.
  destruct v; try reflexivity.
Qed.

(** Entries whose value is not a [dict] leave no trace. *)
Lemma process_multiple_problems_filter items w :
  _process_multiple_problems py backend cfg items w
  = _process_multiple_problems py backend cfg
      (filter (fun kv => is_dict (snd kv)) items) w.
Proof.
  revert w. induction items as [|[key v] items IH]; intros w; [reflexivity|].
  cbn [filter snd].
  destruct v; cbn [is_dict];
    rewrite process_multiple_problems_cons; try apply IH.
  rewrite (process_multiple_problems_cons key (VDict d)).
  destruct (process_single_problem py backend cfg key d w) as [[[]|e] w'];
    [apply IH | reflexivity].
Qed.

(** A top-level object without all three keys goes to the loop over its
    entries. *)
Lemma process_json_file_mapping file_path d w :
  forallb (has_key d) required_keys = false ->
  process_json_file py backend cfg file_path (Ret (VDict d)) w
  = try_except_file file_path (_process_multiple_problems py backend cfg d) w.
Proof.
  intros H. unfold process_json_file, try_except_file, bind, lift.
  cbn [of_lib _is_single_problem_format]. now rewrite H.
Qed.

(** The loop over a concatenation is the loop over the first part followed,
    when it returns, by the loop over the second. *)
Lemma process_multiple_problems_app pre items w :
  _process_multiple_problems py backend cfg (pre ++ items) w
  = (_process_multiple_problems py backend cfg pre ;;;
     _process_multiple_problems py backend cfg items) w.
Proof.
  revert w. induction pre as [|[key v] pre IH]; intros w; [reflexivity|].
  cbn [app]. rewrite process_multiple_problems_cons.
  unfold bind at 1. rewrite process_multiple_problems_cons.
  destruct v; try apply IH.
  destruct (process_single_problem py backend cfg key d w) as [[[]|e] w'];
    [apply IH | reflexivity].
Qed.

Lemma process_multiple_problems_no_object items w :
  forallb (fun kv => negb (is_dict (snd kv))) items = true ->
  _process_multiple_problems py backend cfg items w = (Ret tt, w).
Proof.
  intros Hall. rewrite process_multiple_problems_filter.
  replace (filter (fun kv => is_dict (snd kv)) items) with (@nil (str * PyVal)).
  - reflexivity.
  - symmetry. clear -Hall. induction items as [|[key v] items IH]; [reflexivity|].
    cbn [forallb snd] in Hall. apply andb_true_iff in Hall as [H1 H2].
    cbn [filter snd]. destruct (is_dict v); [discriminate|]. now apply IH.
Qed.

Lemma missing_key_not_single d k :
  In k required_keys -> has_key d k = false ->
  forallb (has_key d) required_keys = false.
Proof.
  intros Hin Hk. destruct (forallb (has_key d) required_keys) eqn:E; [|reflexivity].
  rewrite forallb_forall in E. rewrite (E k Hin) in Hk. discriminate.
Qed.

End Suite.

(** C2, as the code has it.  Inside a multi-problem mapping, a record (an
    entry whose value is an object) that lacks one of the three required keys
    prints the "Invalid problem data" line with its name, makes no completion
    call, and the loop goes on with the next entry.  The same record as the
    top-level object of a file is not seen as a record: the file is read as a
    mapping of names to records. *)
Theorem invalid_record_reported (py : Python) (backend : Backend) (cfg : Config)
        (name file_path : str) (d rest : dict) (k : str) (w : World) :
  In k required_keys ->
  has_key d k = false ->
  _process_multiple_problems py backend cfg ((name, VDict d) :: rest) w
  = _process_multiple_problems py backend cfg rest (printed w [invalid_line name])
  /\ process_json_file py backend cfg file_path (Ret (VDict d)) w
     = try_except_file file_path (_process_multiple_problems py backend cfg d) w.
Proof.
  intros Hin Hk. split.
  - rewrite process_multiple_problems_cons.
    now rewrite (process_single_problem_invalid py backend cfg name d w
                   (missing_key_invalid d k Hin Hk)).
  - apply process_json_file_mapping. now apply (missing_key_not_single d k).
Qed.

(** A record without [test_output], followed by a complete one that passes. *)
Lemma invalid_record_reported_witness :
  let bad := [(u "query", VStr (u "Square the number")); (u "test_input", VInt 5)] in
  let good := [(u "query", VStr (u "Square the number")); (u "test_input", VInt 5);
               (u "test_output", VStr (u "25"))] in
  let backend := Mock.scripted [Success (Mock.fenced Mock.code_square)] in
  let run := _process_multiple_problems Mock.python backend source_config
               [(u "first", VDict bad); (u "second", VDict good)] Mock.w0 in
  In (u "test_output") required_keys
  /\ has_key bad (u "test_output") = false
  /\ run = _process_multiple_problems Mock.python backend source_config
             [(u "second", VDict good)] (printed Mock.w0 [invalid_line (u "first")])
  /\ hd [] (stdout (snd run)) = invalid_line (u "first")
  /\ last (stdout (snd run)) [] = verdict_line Passed.
Proof.
  intros bad good backend run.
  assert (H1 : In (u "test_output") required_keys) by (right; right; left; reflexivity).
  assert (H2 : has_key bad (u "test_output") = false) by reflexivity.
  destruct (invalid_record_reported Mock.python backend source_config
              (u "first") (u "/test_cases/all.json") bad [(u "second", VDict good)]
              (u "test_output") Mock.w0 H1 H2) as [H3 _].
  split; [exact H1|]. split; [exact H2|]. split; [exact H3|].
  subst run. rewrite H3. split; vm_compute; reflexivity.
Defined.

(** C2 as stated fails: a file whose top-level object is one record without
    [test_output] is read as a mapping of names to records; none of its
    values is an object, so nothing is printed and nothing is called. *)
Lemma single_record_dropped_silently :
  let record := [(u "query", VStr (u "Square the number")); (u "test_input", VInt 5)] in
  has_key record (u "test_output") = false
  /\ process_json_file Mock.python (Mock.scripted []) source_config
       (u "/test_cases/square.json") (Ret (VDict record)) Mock.w0
     = (Ret tt, Mock.w0).
Proof. split; vm_compute; reflexivity. Qed.

(** C10.  A top-level object that lacks one of the three keys is processed as
    a multi-problem mapping.  Every entry whose value is an object is handed
    to [process_single_problem], under its key, in the world the entries
    before it left (when these returned), and the loop goes on with the
    entries after it; the entries whose value is not an object print nothing,
    call nothing and do not stop the loop, so that the processing equals the
    one of the object-valued entries alone. *)
Theorem non_object_entries_skipped (py : Python) (backend : Backend) (cfg : Config)
        (file_path : str) (d : dict) (w : World) :
  forallb (has_key d) required_keys = false ->
  process_json_file py backend cfg file_path (Ret (VDict d)) w
  = try_except_file file_path (_process_multiple_problems py backend cfg d) w
  /\ _process_multiple_problems py backend cfg d w
     = _process_multiple_problems py backend cfg
         (filter (fun kv => is_dict (snd kv)) d) w
  /\ (forallb (fun kv => negb (is_dict (snd kv))) d = true ->
      process_json_file py backend cfg file_path (Ret (VDict d)) w = (Ret tt, w))
  /\ (forall pre key r rest,
        d = pre ++ (key, VDict r) :: rest ->
        _process_multiple_problems py backend cfg d w
        = (_process_multiple_problems py backend cfg pre ;;;
           process_single_problem py backend cfg key r ;;;
           _process_multiple_problems py backend cfg rest) w)
  /\ (forall pre key r rest,
        d = pre ++ (key, VDict r) :: rest ->
        forallb (fun kv => negb (is_dict (snd kv))) pre = true ->
        process_json_file py backend cfg file_path (Ret (VDict d)) w
        = try_except_file file_path
            (process_single_problem py backend cfg key r ;;;
             _process_multiple_problems py backend cfg rest) w).
Proof.
  intros H.
  assert (Hp := process_json_file_mapping py backend cfg file_path d w H).
  split; [exact Hp|]. split; [apply process_multiple_problems_filter|].
  split; [|split].
  - intros Hall. rewrite Hp. unfold try_except_file.
    now rewrite (process_multiple_problems_no_object py backend cfg d w Hall).
  - intros pre key r rest ->. apply process_multiple_problems_app.
  - intros pre key r rest -> Hall. rewrite Hp. unfold try_except_file.
    rewrite process_multiple_problems_app. unfold bind at 1.
    now rewrite (process_multiple_problems_no_object py backend cfg pre w Hall).
Qed.

(** A mapping with a text entry, a number entry and one complete record:
    only the record is evaluated, and it is: its header is printed under its
    key, the initial prompt of its query is the one completion call, and the
    run ends on the PASSED line. *)
Lemma non_object_entries_skipped_witness :
  let good := [(u "query", VStr (u "Square the number")); (u "test_input", VInt 5);
               (u "test_output", VStr (u "25"))] in
  let d := [(u "note", VStr (u "squares")); (u "square", VDict good);
            (u "count", VInt 1)] in
  let backend := Mock.scripted [Success (Mock.fenced Mock.code_square)] in
  let run := process_json_file Mock.python backend source_config
               (u "/test_cases/all.json") (Ret (VDict d)) Mock.w0 in
  forallb (has_key d) required_keys = false
  /\ run = try_except_file (u "/test_cases/all.json")
             (_process_multiple_problems Mock.python backend source_config
                [(u "square", VDict good)]) Mock.w0
  /\ run = try_except_file (u "/test_cases/all.json")
             (process_single_problem Mock.python backend source_config
                (u "square") good ;;;
              _process_multiple_problems Mock.python backend source_config
                [(u "count", VInt 1)]) Mock.w0
  /\ fst run = Ret tt
  /\ nth 1 (stdout (snd run)) [] = u "Testing Problem: square"
  /\ sent (snd run) = [INITIAL_PROMPT_TEMPLATE (u "Square the number")]
  /\ last (stdout (snd run)) [] = verdict_line Passed.
Proof.
  intros good d backend run.
  assert (H : forallb (has_key d) required_keys = false) by reflexivity.
  destruct (non_object_entries_skipped Mock.python backend source_config
              (u "/test_cases/all.json") d Mock.w0 H) as (Ha & Hb & _ & _ & Hc).
  specialize (Hc [(u "note", VStr (u "squares"))] (u "square") good
                 [(u "count", VInt 1)] eq_refl eq_refl).
  split; [exact H|].
  split; [subst run; rewrite Ha; unfold try_except_file; rewrite Hb; reflexivity|].
  split; [exact Hc|].
  subst run. rewrite Hc.
  split; [vm_compute; reflexivity|]. split; [vm_compute; reflexivity|].
  split; vm_compute; reflexivity.
Defined.

Lemma verdict_passed_iff (py : Python) (actual : option str) (expected : PyVal)
      (error : option str) :
  verdict py actual expected error = Passed
  <-> error_truthy error = false /\ actual = Some (str_ py expected).
Proof.
  unfold verdict, output_matches, str_eqb.
  destruct (error_truthy error); [split; [discriminate | intros [? _]; discriminate]|].
  destruct actual as [a|].
  - destruct (list_eq_dec N.eq_dec a (str_ py expected)) as [->|Hne].
    + split; auto.
    + split; [discriminate|]. intros [_ [= ->]]. contradiction.
  - split; [discriminate | intros [_ ?]; discriminate].
Qed.

(** C5, as the code has it.  A record whose [query] is truthy and whose
    [test_input] and [test_output] are not [None] (so all three keys are
    present; [False] and [0] qualify as input and output) is evaluated: after
    the header, the completion service receives the initial prompt of the
    query, and the result is printed from the comparison of the actual output
    with [str(test_output)]. *)
Theorem valid_record_evaluated (py : Python) (backend : Backend) (cfg : Config)
        (name : str) (d : dict) (w : World) :
  let query := dict_get d (u "query") in
  let test_input := dict_get d (u "test_input") in
  let expected_output := dict_get d (u "test_output") in
  truthy query = true ->
  test_input <> VNone ->
  expected_output <> VNone ->
  let run := generate_and_test_code py backend cfg query test_input
               (printed w (header_lines py name query test_input expected_output)) in
  forallb (has_key d) required_keys = true
  /\ (exists more,
         sent (snd run) = sent w ++ INITIAL_PROMPT_TEMPLATE (str_ py query) :: more)
  /\ process_single_problem py backend cfg name d w
     = match fst run with
       | Ret (_, actual_output, error) =>
           (Ret tt,
            printed (snd run) (result_lines py actual_output expected_output error))
       | Raise e => (Raise e, snd run)
       end
  /\ forall code actual_output error,
       fst run = Ret (code, actual_output, error) ->
       last (result_lines py actual_output expected_output error) []
       = verdict_line (verdict py actual_output expected_output error)
       /\ (verdict py actual_output expected_output error = Passed
           <-> error_truthy error = false
               /\ actual_output = Some (str_ py expected_output)).
Proof.
  intros query test_input expected_output Hq Hi Ho run.
  split.
  { cbn [forallb required_keys].
    rewrite (dict_get_present d (u "test_input") Hi).
    rewrite (dict_get_present d (u "test_output") Ho).
    rewrite (dict_get_present d (u "query")); [reflexivity|].
    fold query. intros E. rewrite E in Hq. discriminate. }
  split.
  { subst run. rewrite generate_sent. cbn [printed sent]. eauto. }
  split.
  { apply process_single_problem_valid. unfold valid_problem.
    fold query test_input expected_output.
    now rewrite Hq, (is_None_false _ Hi), (is_None_false _ Ho). }
  intros code actual error _. split.
  - apply result_lines_last.
  - apply verdict_passed_iff.
Qed.

(** Input [False] and expected output [0]: the record is evaluated, and the
    answer ['0'] passes. *)
Lemma valid_record_evaluated_witness :
  let d := [(u "query", VStr (u "Square the number")); (u "test_input", VBool false);
            (u "test_output", VInt 0)] in
  let backend := Mock.scripted [Success (Mock.fenced Mock.code_square)] in
  let run := process_single_problem Mock.python backend source_config
               (u "square") d Mock.w0 in
  truthy (dict_get d (u "query")) = true
  /\ dict_get d (u "test_input") <> VNone
  /\ dict_get d (u "test_output") <> VNone
  /\ forallb (has_key d) required_keys = true
  /\ sent (snd run) = [INITIAL_PROMPT_TEMPLATE (u "Square the number")]
  /\ last (stdout (snd run)) [] = verdict_line Passed.
Proof.
  intros d backend run.
  assert (H1 : truthy (dict_get d (u "query")) = true) by reflexivity.
  assert (H2 : dict_get d (u "test_input") <> VNone) by (vm_compute; discriminate).
  assert (H3 : dict_get d (u "test_output") <> VNone) by (vm_compute; discriminate).
  destruct (valid_record_evaluated Mock.python backend source_config (u "square")
              d Mock.w0 H1 H2 H3) as (Hk & _ & Hp & _).
  split; [exact H1|]. split; [exact H2|]. split; [exact H3|]. split; [exact Hk|].
  subst run. rewrite Hp. split; vm_compute; reflexivity.
Defined.

(** C5 as stated fails: a record with all three keys whose [test_input] is
    [null] is reported as invalid and not evaluated. *)
Lemma null_input_rejected :
  let d := [(u "query", VStr (u "Is the input missing?")); (u "test_input", VNone);
            (u "test_output", VStr (u "yes"))] in
  let backend := Mock.scripted [Success (Mock.fenced Mock.code_square)] in
  forallb (has_key d) required_keys = true
  /\ process_json_file Mock.python backend source_config
       (u "/test_cases/missing.json") (Ret (VDict d)) Mock.w0
     = (Ret tt, {| sent := []; stdout := [invalid_line (u "missing")] |}).
Proof. split; vm_compute; reflexivity. Qed.

(** A file that is not JSON, and a JSON file whose top level is a list. *)
Example invalid_json_reported :
  process_json_file Mock.python (Mock.scripted []) source_config (u "/t/a.json")
    (Raise (MkExc JSONDecodeError (u "Expecting value: line 1 column 1 (char 0)")))
    Mock.w0
  = (Ret tt,
     printed Mock.w0
       [u "ERROR: Invalid JSON in /t/a.json: Expecting value: line 1 column 1 (char 0)"
        ++ nl]).
Proof. vm_compute. reflexivity. Qed.

Example top_level_list_reported :
  process_json_file Mock.python (Mock.scripted []) source_config (u "/t/a.json")
    (Ret (VList [])) Mock.w0
  = (Ret tt,
     printed Mock.w0
       [u "ERROR: Failed to process /t/a.json: 'list' object has no attribute 'keys'"
        ++ nl]).
Proof. vm_compute. reflexivity. Qed.

(** * Further properties *)

(** ** Trimming *)

Lemma lstrip_idem (s : str) : lstrip (lstrip s) = lstrip s.
Proof.
  induction s as [|c s IH]; [reflexivity|].
  cbn [lstrip]. destruct (isspace c) eqn:E; [exact IH|].
  cbn [lstrip]. now rewrite E.
Qed.

Lemma lstrip_app_nonspace (l : str) (c : char) :
  isspace c = false -> lstrip (l ++ [c]) = lstrip l ++ [c].
Proof.
  intros Hc. induction l as [|d l IH]; cbn [app lstrip].
  - now rewrite Hc.
  - destruct (isspace d); [exact IH | reflexivity].
Qed.

Lemma lstrip_fixed (s : str) :
  lstrip s = s <-> s = [] \/ exists c s', s = c :: s' /\ isspace c = false.
Proof.
  split.
  - destruct s as [|c s]; [now left|]. cbn [lstrip].
    destruct (isspace c) eqn:E; [|right; eauto].
    intros H. exfalso.
    assert (Hlen : (length (lstrip s) <= length s)%nat).
    { clear. induction s as [|d s IH]; [reflexivity|]. cbn [lstrip].
      destruct (isspace d); cbn [length]; lia. }
    rewrite H in Hlen. cbn [length] in Hlen. lia.
  - intros [->|(c & s' & -> & Hc)]; [reflexivity|]. cbn [lstrip]. now rewrite Hc.
Qed.

Lemma rstrip_idem (s : str) : rstrip (rstrip s) = rstrip s.
Proof. unfold rstrip. now rewrite rev_involutive, lstrip_idem. Qed.

(** Trimming the right end keeps a trimmed left end. *)
Lemma lstrip_rstrip_fixed (a : str) : lstrip a = a -> lstrip (rstrip a) = rstrip a.
Proof.
  intros H. apply lstrip_fixed in H as [->|(c & a' & -> & Hc)]; [reflexivity|].
  unfold rstrip. cbn [rev]. rewrite (lstrip_app_nonspace _ _ Hc).
  rewrite rev_app_distr. cbn [rev app lstrip]. now rewrite Hc.
Qed.

Lemma lstrip_strip (s : str) : lstrip (strip s) = strip s.
Proof. unfold strip. apply lstrip_rstrip_fixed, lstrip_idem. Qed.

Lemma rstrip_strip (s : str) : rstrip (strip s) = strip s.
Proof. unfold strip. apply rstrip_idem. Qed.

Lemma strip_idem (s : str) : strip (strip s) = strip s.
Proof. unfold strip at 1. now rewrite lstrip_strip, rstrip_strip. Qed.

Lemma lstrip_skipn (s : str) : exists n, lstrip s = skipn n s.
Proof.
  induction s as [|c s [n IH]]; [now exists O|].
  cbn [lstrip]. destruct (isspace c); [now exists (S n) | now exists O].
Qed.

Lemma rstrip_firstn (s : str) : exists n, rstrip s = firstn n s.
Proof.
  unfold rstrip. destruct (lstrip_skipn (rev s)) as [n ->].
  exists (length s - n)%nat. rewrite skipn_rev, rev_involutive. reflexivity.
Qed.

(** ** More on searching *)

Lemma startswith_firstn (s sub : str) (n : nat) :
  startswith (firstn n s) sub = true -> startswith s sub = true.
Proof.
  revert s n. induction sub as [|a sub IH]; intros s n; [reflexivity|].
  destruct n as [|n]; [discriminate|].
  destruct s as [|b s]; [discriminate|].
  cbn [firstn startswith]. intros H. apply andb_true_iff in H as [H1 H2].
  rewrite H1. cbn [andb]. now apply (IH s n).
Qed.

Lemma find_at_none_firstn (s sub : str) (n : nat) (i j : Z) :
  0 <= i -> find_at s sub i = -1 -> find_at (firstn n s) sub j = -1.
Proof.
  revert n i j. induction s as [|c s IH]; intros n i j Hi.
  - rewrite firstn_nil. apply find_at_none_shift. exact Hi.
  - cbn [find_at]. destruct (startswith (c :: s) sub) eqn:E; [lia|].
    intros H. destruct n as [|n].
    + cbn [firstn find_at].
      destruct (startswith [] sub) eqn:E0; [|reflexivity].
      apply (startswith_firstn (c :: s) sub 0) in E0. congruence.
    + cbn [firstn find_at].
      destruct (startswith (c :: firstn n s) sub) eqn:E1.
      * apply (startswith_firstn (c :: s) sub (S n)) in E1. congruence.
      * apply (IH n (i + 1)); [lia | exact H].
Qed.

Lemma find_at_none_strip (s sub : str) :
  find_at s sub 0 = -1 -> find_at (strip s) sub 0 = -1.
Proof.
  intros H. unfold strip.
  destruct (rstrip_firstn (lstrip s)) as [n ->].
  apply (find_at_none_firstn _ _ n 0); [lia|].
  destruct (lstrip_skipn s) as [m ->].
  apply (find_at_none_skipn s sub m 0); [lia | exact H].
Qed.

Lemma startswith_app (s t sub : str) :
  startswith s sub = true -> startswith (s ++ t) sub = true.
Proof.
  revert s. induction sub as [|a sub IH]; intros s; [reflexivity|].
  destruct s as [|b s]; [discriminate|].
  cbn [app startswith]. intros H. apply andb_true_iff in H as [H1 H2].
  rewrite H1. cbn [andb]. now apply IH.
Qed.

Lemma startswith_app_long (s t sub : str) :
  (length sub <= length s)%nat -> startswith (s ++ t) sub = startswith s sub.
Proof.
  revert s. induction sub as [|a sub IH]; intros s Hlen; [reflexivity|].
  destruct s as [|b s]; [cbn [length] in Hlen; lia|].
  cbn [app startswith]. rewrite IH; [reflexivity|]. cbn [length] in Hlen. lia.
Qed.

Lemma startswith_length (s sub : str) :
  startswith s sub = true -> (length sub <= length s)%nat.
Proof.
  revert s. induction sub as [|a sub IH]; intros s; [cbn [length]; lia|].
  destruct s as [|b s]; [discriminate|].
  cbn [startswith length]. intros H. apply andb_true_iff in H as [_ H].
  apply IH in H. lia.
Qed.

Lemma find_at_found_length (s sub : str) (i : Z) :
  0 <= i -> find_at s sub i <> -1 -> (length sub <= length s)%nat.
Proof.
  revert i. induction s as [|c s IH]; intros i Hi; cbn [find_at].
  - destruct (startswith [] sub) eqn:E; [|congruence].
    intros _. now apply startswith_length.
  - destruct (startswith (c :: s) sub) eqn:E.
    + intros _. now apply startswith_length.
    + intros H. apply IH in H; [|lia]. cbn [length]. lia.
Qed.

(** An occurrence found in [a] is the first one of [a ++ b] too. *)
Lemma find_at_app_found (a b sub : str) (i : Z) :
  0 <= i -> find_at a sub i <> -1 -> find_at (a ++ b) sub i = find_at a sub i.
Proof.
  revert i. induction a as [|c a IH]; intros i Hi.
  - cbn [find_at app]. destruct (startswith [] sub) eqn:E; [|congruence].
    intros _. destruct sub; [|discriminate]. destruct b; reflexivity.
  - cbn [app]. cbn [find_at]. intros H.
    assert (Hlen : (length sub <= length (c :: a))%nat).
    { apply (find_at_found_length (c :: a) sub i Hi). exact H. }
    change (c :: a ++ b) with ((c :: a) ++ b).
    rewrite (startswith_app_long (c :: a) b sub Hlen).
    destruct (startswith (c :: a) sub); [reflexivity|].
    cbn [app]. apply IH; [lia | exact H].
Qed.

Lemma find_at_shift (s sub : str) (k i : Z) :
  0 <= k -> find_at s sub k <> -1 ->
  find_at s sub i = i + (find_at s sub k - k).
Proof.
  revert k i. induction s as [|c s IH]; intros k i Hk; cbn [find_at].
  - destruct (startswith [] sub); [lia | congruence].
  - destruct (startswith (c :: s) sub); [lia|].
    intros H. rewrite (IH (k + 1) (i + 1)); [lia | lia | exact H].
Qed.

Lemma len_app (a b : str) : len (a ++ b) = len a + len b.
Proof. unfold len. rewrite length_app. lia. Qed.

Lemma len_nonneg (a : str) : 0 <= len a.
Proof. unfold len. lia. Qed.

(** Searching [pre ++ rest] from the end of [pre] is searching [rest]. *)
Lemma find_app_from (pre rest sub : str) :
  find_at rest sub 0 <> -1 ->
  find (pre ++ rest) sub (len pre) = len pre + find_at rest sub 0.
Proof.
  intros H. unfold find. rewrite len_app.
  destruct (len pre + len rest <? len pre) eqn:E.
  - apply Z.ltb_lt in E. pose proof (len_nonneg rest). lia.
  - unfold len at 1. rewrite Nat2Z.id, skipn_app, skipn_all, Nat.sub_diag.
    cbn [app skipn]. rewrite (find_at_shift rest sub 0 (len pre)); [lia | lia | exact H].
Qed.

Lemma slice_app (pre body post : str) :
  slice (pre ++ body ++ post) (len pre) (len pre + len body) = body.
Proof.
  unfold slice, len. rewrite <- Nat2Z.inj_add, !Nat2Z.id.
  rewrite skipn_app, skipn_all, Nat.sub_diag. cbn [app skipn].
  replace (length pre + length body - length pre)%nat with (length body) by lia.
  rewrite firstn_app, firstn_all, Nat.sub_diag. cbn [firstn]. apply app_nil_r.
Qed.

(** ** More on extract_python_code *)

Lemma extract_python_code_cases (text : str) :
  text <> [] ->
  extract_python_code text
  = match
      (if contains text python_fence
       then let start := find text python_fence 0 + len python_fence in
            let end_ := find text fence start in
            if negb (end_ =? -1) then Some (strip (slice text start end_)) else None
       else None)
    with
    | Some code => code
    | None =>
        match
          (if contains text fence
           then let start := find text fence 0 + 3 in
                let end_ := find text fence start in
                if negb (end_ =? -1) then Some (strip (slice text start end_)) else None
           else None)
        with
        | Some code => code
        | None => strip text
        end
    end.
Proof. destruct text; [congruence | reflexivity]. Qed.

Lemma no_fence_no_python_fence (text : str) :
  find text fence 0 = -1 -> find text python_fence 0 = -1.
Proof.
  intros H. destruct (Z.eq_dec (find text python_fence 0) (-1)) as [E|E]; [exact E|].
  rewrite find_0 in *. rewrite python_fence_split in E.
  destruct (find_at_prefix_le text fence (u "python") 0 ltac:(lia) E). congruence.
Qed.

Lemma extract_without_fence (text : str) :
  find text fence 0 = -1 -> extract_python_code text = strip text.
Proof.
  intros H. destruct text as [|c text]; [reflexivity|].
  rewrite extract_python_code_cases by discriminate.
  unfold contains. rewrite (no_fence_no_python_fence _ H), H. reflexivity.
Qed.

(** X1.  On a text without fence marker the extraction is the trimmed text,
    and extracting again changes nothing. *)
Theorem extract_idempotent_without_fence (text : str) :
  find text fence 0 = -1 ->
  extract_python_code text = strip text
  /\ extract_python_code (extract_python_code text) = extract_python_code text.
Proof.
  intros H. rewrite (extract_without_fence text H). split; [reflexivity|].
  rewrite extract_without_fence; [apply strip_idem|].
  rewrite find_0 in *. now apply find_at_none_strip.
Qed.

Lemma extract_idempotent_without_fence_witness :
  let text := u "  def f(x): return x" ++ nl in
  find text fence 0 = -1
  /\ extract_python_code text = u "def f(x): return x"
  /\ extract_python_code (extract_python_code text) = extract_python_code text.
Proof.
  intros text.
  assert (H : find text fence 0 = -1) by (vm_compute; reflexivity).
  destruct (extract_idempotent_without_fence text H) as [H1 H2].
  split; [exact H|]. split; [rewrite H1; vm_compute; reflexivity | exact H2].
Defined.

(** X2.  Whatever the response, the extracted code has no white space at
    either end: trimming it again, on the left or on the right, changes
    nothing.  The empty response gives the empty code. *)
Theorem extract_is_trimmed (text : str) :
  lstrip (extract_python_code text) = extract_python_code text
  /\ rstrip (extract_python_code text) = extract_python_code text
  /\ extract_python_code [] = [].
Proof.
  assert (G : exists s, extract_python_code text = strip s).
  { destruct text as [|c text]; [now exists []|].
    rewrite extract_python_code_cases by discriminate.
    remember (c :: text) as t. cbv zeta.
    destruct (contains t python_fence).
    - destruct (negb (find t fence (find t python_fence 0 + len python_fence) =? -1));
        [eauto|].
      destruct (contains t fence); [|eauto].
      destruct (negb (find t fence (find t fence 0 + 3) =? -1)); eauto.
    - destruct (contains t fence); [|eauto].
      destruct (negb (find t fence (find t fence 0 + 3) =? -1)); eauto. }
  destruct G as [s ->].
  split; [apply lstrip_strip|]. split; [apply rstrip_strip | reflexivity].
Qed.

(** X3.  A response made of any text, a tagged fence, a body, a fence and any
    text, where the tagged fence first occurs after the leading text and the
    first fence marker after it is the closing one, gives the trimmed
    body, whatever plain fences the leading text holds. *)
Theorem extract_tagged_block (pre body post : str) :
  find (pre ++ python_fence) python_fence 0 = len pre ->
  find (body ++ fence) fence 0 = len body ->
  extract_python_code (pre ++ python_fence ++ body ++ fence ++ post) = strip body.
Proof.
  intros Hopen Hclose.
  set (text := pre ++ python_fence ++ body ++ fence ++ post).
  assert (Hne : text <> []).
  { subst text. destruct pre; discriminate. }
  assert (H1 : find text python_fence 0 = len pre).
  { subst text. rewrite find_0 in *.
    rewrite (app_assoc pre python_fence).
    rewrite find_at_app_found; [exact Hopen | lia |].
    rewrite Hopen. pose proof (len_nonneg pre). lia. }
  assert (H2 : find text fence (len pre + len python_fence)
               = len pre + len python_fence + len body).
  { subst text. rewrite (app_assoc pre python_fence), <- len_app.
    rewrite find_0 in Hclose.
    assert (Hf : find_at (body ++ fence ++ post) fence 0 = len body).
    { rewrite (app_assoc body fence).
      rewrite find_at_app_found; [exact Hclose | lia |].
      rewrite Hclose. pose proof (len_nonneg body). lia. }
    rewrite find_app_from; rewrite Hf; [reflexivity|].
    pose proof (len_nonneg body). lia. }
  rewrite extract_python_code_cases by exact Hne.
  unfold contains. rewrite H1.
  pose proof (len_nonneg pre) as Hp. pose proof (len_nonneg body) as Hb.
  pose proof (len_nonneg python_fence) as Hpf.
  destruct (len pre =? -1) eqn:E; [apply Z.eqb_eq in E; lia|].
  cbn [negb]. cbv zeta. rewrite H2.
  destruct (len pre + len python_fence + len body =? -1) eqn:E2;
    [apply Z.eqb_eq in E2; lia|].
  cbn [negb]. f_equal.
  subst text. rewrite (app_assoc pre python_fence), <- len_app.
  apply slice_app.
Qed.

Lemma extract_tagged_block_witness :
  let pre := u "Use ``` for code. Here it is:" ++ nl in
  let body := nl ++ u "def f(x): return x" ++ nl in
  let post := nl ++ u "Done." in
  find (pre ++ python_fence) python_fence 0 = len pre
  /\ find (body ++ fence) fence 0 = len body
  /\ extract_python_code (pre ++ python_fence ++ body ++ fence ++ post)
     = u "def f(x): return x".
Proof.
  intros pre body post.
  assert (H1 : find (pre ++ python_fence) python_fence 0 = len pre)
    by (vm_compute; reflexivity).
  assert (H2 : find (body ++ fence) fence 0 = len body) by (vm_compute; reflexivity).
  split; [exact H1|]. split; [exact H2|].
  rewrite (extract_tagged_block pre body post H1 H2). vm_compute. reflexivity.
Defined.

(** X4.  Without any tagged fence in the response, the body between the
    first fence marker and the next one is returned, trimmed. *)
Theorem extract_plain_block (pre body post : str) :
  find (pre ++ fence ++ body ++ fence ++ post) python_fence 0 = -1 ->
  find (pre ++ fence) fence 0 = len pre ->
  find (body ++ fence) fence 0 = len body ->
  extract_python_code (pre ++ fence ++ body ++ fence ++ post) = strip body.
Proof.
  intros Hnotag Hopen Hclose.
  set (text := pre ++ fence ++ body ++ fence ++ post) in *.
  assert (Hne : text <> []).
  { subst text. destruct pre; discriminate. }
  assert (H1 : find text fence 0 = len pre).
  { subst text. rewrite find_0 in *.
    rewrite (app_assoc pre fence).
    rewrite find_at_app_found; [exact Hopen | lia |].
    rewrite Hopen. pose proof (len_nonneg pre). lia. }
  assert (H2 : find text fence (len pre + 3) = len pre + 3 + len body).
  { subst text. rewrite (app_assoc pre fence).
    change 3 with (len fence). rewrite <- len_app.
    rewrite find_0 in Hclose.
    assert (Hf : find_at (body ++ fence ++ post) fence 0 = len body).
    { rewrite (app_assoc body fence).
      rewrite find_at_app_found; [exact Hclose | lia |].
      rewrite Hclose. pose proof (len_nonneg body). lia. }
    rewrite find_app_from; rewrite Hf; [reflexivity|].
    pose proof (len_nonneg body). lia. }
  rewrite extract_python_code_cases by exact Hne.
  unfold contains. rewrite Hnotag, H1.
  pose proof (len_nonneg pre) as Hp. pose proof (len_nonneg body) as Hb.
  rewrite Z.eqb_refl. cbn [negb].
  destruct (len pre =? -1) eqn:E; [apply Z.eqb_eq in E; lia|].
  cbn [negb]. cbv zeta. rewrite H2.
  destruct (len pre + 3 + len body =? -1) eqn:E2; [apply Z.eqb_eq in E2; lia|].
  cbn [negb]. f_equal.
  subst text. rewrite (app_assoc pre fence).
  change 3 with (len fence). rewrite <- len_app.
  apply slice_app.
Qed.

Lemma extract_plain_block_witness :
  let pre := u "Here:" ++ nl in
  let body := nl ++ u "def f(x): return x" ++ nl in
  let post := nl ++ u "Done." in
  find (pre ++ fence ++ body ++ fence ++ post) python_fence 0 = -1
  /\ find (pre ++ fence) fence 0 = len pre
  /\ find (body ++ fence) fence 0 = len body
  /\ extract_python_code (pre ++ fence ++ body ++ fence ++ post)
     = u "def f(x): return x".
Proof.
  intros pre body post.
  assert (H0 : find (pre ++ fence ++ body ++ fence ++ post) python_fence 0 = -1)
    by (vm_compute; reflexivity).
  assert (H1 : find (pre ++ fence) fence 0 = len pre) by (vm_compute; reflexivity).
  assert (H2 : find (body ++ fence) fence 0 = len body) by (vm_compute; reflexivity).
  split; [exact H0|]. split; [exact H1|]. split; [exact H2|].
  rewrite (extract_plain_block pre body post H0 H1 H2). vm_compute. reflexivity.
Defined.

(** ** More on execute_code_safely *)

(** X5.  The four ways [execute_code_safely] ends: a result without error;
    an error without result; an exception that is not an instance of
    [Exception], raised by the load, the call or [str] of the result; or the
    exception that [str(e)] raises in the handler, for an instance [e0] of
    [Exception] raised at one of those three points. *)
Theorem execute_code_safely_outcomes (py : Python) (code : str) (test_input : PyVal) :
  (exists s, execute_code_safely py code test_input = Ret (Some s, None))
  \/ (exists msg, execute_code_safely py code test_input = Ret (None, Some msg))
  \/ (exists e, execute_code_safely py code test_input = Raise e
                /\ isinstance_Exception e = false
                /\ fails py code test_input e)
  \/ (exists e0 e, execute_code_safely py code test_input = Raise e
                   /\ fails py code test_input e0
                   /\ isinstance_Exception e0 = true
                   /\ str_exception e0 = Raise e).
Proof.
  destruct (execute_code_safely py code test_input) as [[result error]|e] eqn:H.
  - destruct (execute_code_safely_shape py _ _ _ _ H) as [(s & -> & ->)|(msg & -> & ->)];
      [left | right; left]; eauto.
  - right; right.
    destruct (execute_code_safely_raise py _ _ _ H) as [[He Hf]|(e0 & Hf & He & Hs)].
    + left. exists e. now repeat split.
    + right. exists e0, e. now repeat split.
Qed.

(** X6.  The binding [find_target_function] returns is callable, its name
    does not start with two underscores, and no binding before it has both
    properties; it returns nothing only when no binding has them. *)
Theorem find_target_function_first (py : Python) (ns : list (str * Obj py)) :
  match find_target_function py ns with
  | Some f =>
      exists name pre post,
        ns = pre ++ (name, f) :: post
        /\ callable py f = true
        /\ startswith name (u "__") = false
        /\ forall n o, In (n, o) pre ->
                       callable py o = false \/ startswith n (u "__") = true
  | None =>
      forall n o, In (n, o) ns ->
                  callable py o = false \/ startswith n (u "__") = true
  end.
Proof.
  induction ns as [|[name obj] ns IH]; cbn [find_target_function].
  - intros n o [].
  - destruct (callable py obj) eqn:Hc; cbn [andb].
    + destruct (startswith name (u "__")) eqn:Hn; cbn [negb].
      * destruct (find_target_function py ns) as [f|].
        -- destruct IH as (nm & pre & post & -> & H1 & H2 & H3).
           exists nm, ((name, obj) :: pre), post. repeat split; try assumption.
           intros n o [[= <- <-]|Hin]; [now right | now apply H3].
        -- intros n o [[= <- <-]|Hin]; [now right | now apply IH].
      * exists name, [], ns. repeat split; try assumption. intros n o [].
    + destruct (find_target_function py ns) as [f|].
      * destruct IH as (nm & pre & post & -> & H1 & H2 & H3).
        exists nm, ((name, obj) :: pre), post. repeat split; try assumption.
        intros n o [[= <- <-]|Hin]; [now left | now apply H3].
      * intros n o [[= <- <-]|Hin]; [now left | now apply IH].
Qed.

(** X7.  Code that loads but binds nothing callable under an ordinary name
    (only data, or only names starting with two underscores) gives the
    "No callable function found" error for every input. *)
Theorem no_suitable_binding (py : Python) (code : str) (test_input : PyVal)
        (ns : list (str * Obj py)) :
  exec py code = Ret ns ->
  (forall n o, In (n, o) ns ->
               callable py o = false \/ startswith n (u "__") = true) ->
  execute_code_safely py code test_input
  = Ret (None, Some (u "No callable function found in generated code")).
Proof.
  intros Hexec Hns. unfold execute_code_safely, execute_body. rewrite Hexec.
  cbn [obind].
  assert (G : find_target_function py ns = None).
  { clear Hexec. induction ns as [|[n o] ns IH]; [reflexivity|].
    cbn [find_target_function].
    destruct (Hns n o (or_introl eq_refl)) as [H|H]; rewrite H.
    - cbn [andb]. apply IH. intros; apply Hns; now right.
    - rewrite andb_false_r. apply IH. intros; apply Hns; now right. }
  now rewrite G.
Qed.

Lemma no_suitable_binding_witness :
  exec Mock.python [] = Ret [Mock.builtins]
  /\ (forall n o, In (n, o) [Mock.builtins] ->
                  callable Mock.python o = false \/ startswith n (u "__") = true)
  /\ execute_code_safely Mock.python [] (VStr (u "abc"))
     = Ret (None, Some (u "No callable function found in generated code")).
Proof.
  assert (H1 : exec Mock.python [] = Ret [Mock.builtins]) by reflexivity.
  assert (H2 : forall n o, In (n, o) [Mock.builtins] ->
                 callable Mock.python o = false \/ startswith n (u "__") = true).
  { intros n o [[= <- <-]|[]]. now left. }
  split; [exact H1|]. split; [exact H2|].
  exact (no_suitable_binding Mock.python [] (VStr (u "abc")) _ H1 H2).
Defined.

(** ** More on generate_and_test_code *)

(** X8.  One evaluation makes one completion call or two, never more,
    whatever the value of [MAX_RETRIES]. *)
Theorem one_or_two_calls (py : Python) (backend : Backend) (cfg : Config)
        (query test_input : PyVal) (w : World) :
  let w' := snd (generate_and_test_code py backend cfg query test_input w) in
  call_count w' = S (call_count w) \/ call_count w' = S (S (call_count w)).
Proof.
  cbv zeta. unfold call_count. rewrite generate_sent, length_app. cbn [length].
  destruct (backend (sent w) (INITIAL_PROMPT_TEMPLATE (str_ py query))) as [text| | |];
    try (left; cbn [length]; lia).
  destruct (execute_code_safely py (extract_python_code text) test_input) as [[r e]|];
    [|left; cbn [length]; lia].
  destruct (error_truthy e && (MAX_RETRIES cfg >? 0)); [right | left]; cbn [length]; lia.
Qed.

(** X9.  With [MAX_RETRIES] at 0 or below, a first attempt that fails to
    execute is final: its error is returned after a single completion
    call. *)
Theorem no_retry_without_budget (py : Python) (backend : Backend) (cfg : Config)
        (query test_input : PyVal) (w : World) (text msg : str) :
  MAX_RETRIES cfg <= 0 ->
  backend (sent w) (INITIAL_PROMPT_TEMPLATE (str_ py query)) = Success text ->
  execute_code_safely py (extract_python_code text) test_input = Ret (None, Some msg) ->
  let run := generate_and_test_code py backend cfg query test_input w in
  fst run = Ret (Some (extract_python_code text), None, Some msg)
  /\ call_count (snd run) = S (call_count w).
Proof.
  intros Hcfg Hb He run. subst run.
  assert (Hr : error_truthy (Some msg) && (MAX_RETRIES cfg >? 0) = false).
  { apply andb_false_iff. right. rewrite Z.gtb_ltb. apply Z.ltb_ge. exact Hcfg. }
  rewrite (generate_single_attempt py backend cfg query test_input w text
             None (Some msg) Hb He Hr).
  unfold call_count. cbn [fst snd printed posted sent]. rewrite length_app.
  cbn [length]. split; [reflexivity | lia].
Qed.

Lemma no_retry_without_budget_witness :
  let backend := Mock.scripted [Success (Mock.fenced Mock.code_boom);
                                Success (Mock.fenced Mock.code_square)] in
  let query := VStr (u "Square the number") in
  let run := generate_and_test_code Mock.python backend MockSilent.no_retry_config
               query (VInt 5) Mock.w0 in
  MAX_RETRIES MockSilent.no_retry_config <= 0
  /\ backend (sent Mock.w0) (INITIAL_PROMPT_TEMPLATE (str_ Mock.python query))
     = Success (Mock.fenced Mock.code_boom)
  /\ execute_code_safely Mock.python
       (extract_python_code (Mock.fenced Mock.code_boom)) (VInt 5)
     = Ret (None, Some (u "boom"))
  /\ fst run = Ret (Some (extract_python_code (Mock.fenced Mock.code_boom)),
                    None, Some (u "boom"))
  /\ call_count (snd run) = 1%nat.
Proof.
  intros backend query run.
  assert (H1 : MAX_RETRIES MockSilent.no_retry_config <= 0) by (cbn; lia).
  assert (H2 : backend (sent Mock.w0) (INITIAL_PROMPT_TEMPLATE (str_ Mock.python query))
               = Success (Mock.fenced Mock.code_boom)) by reflexivity.
  assert (H3 : execute_code_safely Mock.python
                 (extract_python_code (Mock.fenced Mock.code_boom)) (VInt 5)
               = Ret (None, Some (u "boom"))) by (vm_compute; reflexivity).
  destruct (no_retry_without_budget Mock.python backend MockSilent.no_retry_config
              query (VInt 5) Mock.w0 _ _ H1 H2 H3) as [Ha Hb].
  split; [exact H1|]. split; [exact H2|]. split; [exact H3|].
  split; [exact Ha | exact Hb].
Defined.



(** X11.  When the retry call gets no answer, the first code is returned
    with the "on retry" error and no result, after two calls. *)
Theorem retry_without_answer (py : Python) (backend : Backend)
        (cfg : Config) (query test_input : PyVal) (w : World) (text msg : str) :
  0 < MAX_RETRIES cfg ->
  msg <> [] ->
  backend (sent w) (INITIAL_PROMPT_TEMPLATE (str_ py query)) = Success text ->
  execute_code_safely py (extract_python_code text) test_input = Ret (None, Some msg) ->
  no_answer (backend (sent w ++ [INITIAL_PROMPT_TEMPLATE (str_ py query)])
                     (RETRY_PROMPT_TEMPLATE (str_ py query) msg
                                            (extract_python_code text))) = true ->
  let run := generate_and_test_code py backend cfg query test_input w in
  fst run = Ret (Some (extract_python_code text), None,
                 Some (u "Failed to get response from LLM on retry"))
  /\ call_count (snd run) = S (S (call_count w)).
Proof.
  intros Hcfg Hmsg Hb He Hb2 run. subst run.
  assert (Hr : error_truthy (Some msg) && (MAX_RETRIES cfg >? 0) = true).
  { apply andb_true_iff. split; [destruct msg; [congruence | reflexivity]|].
    apply Z.gtb_lt. lia. }
  rewrite (generate_retry py backend cfg query test_input w text None (Some msg)
             Hb He Hr).
  cbv zeta. cbn [fmt_opt]. cbn [before_retry printed posted sent].
  destruct (backend (sent w ++ [INITIAL_PROMPT_TEMPLATE (str_ py query)])
                    (RETRY_PROMPT_TEMPLATE (str_ py query) msg
                                           (extract_python_code text)))
    as [t2| |d|e]; try discriminate;
    unfold call_count; cbn [fst snd before_retry printed posted sent];
    rewrite !length_app; cbn [length]; (split; [reflexivity | lia]).
Qed.

Lemma retry_without_answer_witness :
  let backend := Mock.scripted [Success (Mock.fenced Mock.code_boom);
                                TransportError (u "Connection reset")] in
  let query := VStr (u "Square the number") in
  let run := generate_and_test_code Mock.python backend source_config
               query (VInt 5) Mock.w0 in
  fst run = Ret (Some Mock.code_boom, None,
                 Some (u "Failed to get response from LLM on retry"))
  /\ call_count (snd run) = 2%nat.
Proof.
  intros backend query run.
  destruct (retry_without_answer Mock.python backend source_config
              query (VInt 5) Mock.w0 (Mock.fenced Mock.code_boom) (u "boom"))
    as [Ha Hb].
  - reflexivity.
  - vm_compute. discriminate.
  - reflexivity.
  - vm_compute. reflexivity.
  - reflexivity.
  - subst run. split; [rewrite Ha; vm_compute; reflexivity | exact Hb].
Defined.

(** X12.  An exception whose description is empty counts as no error for
    the retry test and for the report: there is no retry even with a positive
    budget, the triple holds neither result nor a usable error, and
    [_print_test_results], run on that triple, prints an output mismatch with
    actual output [None]. *)
Theorem empty_error_is_not_retried (py : Python) (backend : Backend) (cfg : Config)
        (query test_input expected_output : PyVal) (w : World) (text : str) :
  backend (sent w) (INITIAL_PROMPT_TEMPLATE (str_ py query)) = Success text ->
  execute_code_safely py (extract_python_code text) test_input = Ret (None, Some []) ->
  let run := generate_and_test_code py backend cfg query test_input w in
  fst run = Ret (Some (extract_python_code text), None, Some [])
  /\ call_count (snd run) = S (call_count w)
  /\ verdict py None expected_output (Some []) = FailedMismatch None expected_output
  /\ _print_test_results py None expected_output (Some []) (snd run)
     = (Ret tt,
        printed (snd run)
          [nl ++ u "Actual Output: None";
           u "Expected Output: " ++ str_ py expected_output;
           u "Result: FAILED (Output mismatch)" ++ nl]).
Proof.
  intros Hb He run. subst run.
  rewrite (generate_single_attempt py backend cfg query test_input w text
             None (Some []) Hb He eq_refl).
  unfold call_count. cbn [fst snd]. cbn [printed posted sent]. rewrite length_app.
  cbn [length]. split; [reflexivity|]. split; [lia|]. split; [reflexivity|].
  rewrite print_test_results_eq. reflexivity.
Qed.

Lemma empty_error_is_not_retried_witness :
  let backend := Mock.scripted [Success (Mock.fenced MockSilent.code_silent);
                                Success (Mock.fenced Mock.code_square)] in
  let query := VStr (u "Square the number") in
  let run := generate_and_test_code MockSilent.python backend source_config
               query (VInt 5) Mock.w0 in
  backend (sent Mock.w0) (INITIAL_PROMPT_TEMPLATE (str_ MockSilent.python query))
  = Success (Mock.fenced MockSilent.code_silent)
  /\ execute_code_safely MockSilent.python
       (extract_python_code (Mock.fenced MockSilent.code_silent)) (VInt 5)
     = Ret (None, Some [])
  /\ 0 < MAX_RETRIES source_config
  /\ fst run = Ret (Some MockSilent.code_silent, None, Some [])
  /\ call_count (snd run) = 1%nat
  /\ _print_test_results MockSilent.python None (VStr (u "25")) (Some []) (snd run)
     = (Ret tt,
        printed (snd run)
          [nl ++ u "Actual Output: None"; u "Expected Output: 25";
           u "Result: FAILED (Output mismatch)" ++ nl]).
Proof.
  intros backend query run.
  assert (H1 : backend (sent Mock.w0)
                 (INITIAL_PROMPT_TEMPLATE (str_ MockSilent.python query))
               = Success (Mock.fenced MockSilent.code_silent)) by reflexivity.
  assert (H2 : execute_code_safely MockSilent.python
                 (extract_python_code (Mock.fenced MockSilent.code_silent)) (VInt 5)
               = Ret (None, Some [])) by (vm_compute; reflexivity).
  destruct (empty_error_is_not_retried MockSilent.python backend source_config
              query (VInt 5) (VStr (u "25")) Mock.w0 _ H1 H2) as (Ha & Hb & _ & Hc).
  split; [exact H1|]. split; [exact H2|]. split; [reflexivity|].
  subst run. split; [rewrite Ha; vm_compute; reflexivity|].
  split; [exact Hb | exact Hc].
Defined.

(** ** More on the report and on records *)

Lemma verdict_line_passed (v : Verdict) :
  verdict_line v = verdict_line Passed <-> v = Passed.
Proof.
  split; [|now intros ->].
  destruct v; [reflexivity | |]; intros H; vm_compute in H; discriminate.
Qed.

Lemma last_app_cons {A} (l m : list A) (a d : A) :
  last (l ++ a :: m) d = last (a :: m) d.
Proof.
  induction l as [|x l IH]; [reflexivity|].
  cbn [app]. rewrite <- IH. cbn [last]. destruct (l ++ a :: m) eqn:E; [|reflexivity].
  destruct l; discriminate.
Qed.

Lemma print_test_results_last (py : Python) actual expected error w :
  last (stdout (snd (_print_test_results py actual expected error w))) []
  = verdict_line (verdict py actual expected error).
Proof.
  rewrite print_test_results_eq. cbn [snd printed stdout].
  rewrite <- result_lines_last. unfold result_lines.
  destruct (error_truthy error); [|destruct (output_matches py actual expected)].
  - apply last_app_cons.
  - apply last_app_cons.
  - apply last_app_cons.
Qed.

(** X13.  The report ends with the PASSED line exactly when there is no
    (non-empty) error and the actual output is [str(expected_output)]. *)
Theorem passed_is_printed_iff (py : Python) (actual_output : option str)
        (expected_output : PyVal) (error : option str) (w : World) :
  last (stdout (snd (_print_test_results py actual_output expected_output error w))) []
  = verdict_line Passed
  <-> error_truthy error = false /\ actual_output = Some (str_ py expected_output).
Proof.
  rewrite print_test_results_last, verdict_line_passed. apply verdict_passed_iff.
Qed.

Lemma is_None_true (v : PyVal) : is_None v = true -> v = VNone.
Proof. destruct v; [reflexivity | discriminate ..]. Qed.

Lemma valid_problem_false (query test_input expected_output : PyVal) :
  valid_problem query test_input expected_output = false
  <-> truthy query = false \/ test_input = VNone \/ expected_output = VNone.
Proof.
  unfold valid_problem. split.
  - intros H. apply andb_false_iff in H as [H|H].
    + apply andb_false_iff in H as [H|H]; [now left|].
      right; left. apply is_None_true. now destruct (is_None test_input).
    + right; right. apply is_None_true. now destruct (is_None expected_output).
  - intros [H | [-> | ->]].
    + now rewrite H.
    + cbn [is_None negb]. now rewrite andb_false_r.
    + cbn [is_None negb]. now rewrite andb_false_r.
Qed.

(** X14.  A record leads to a completion call exactly when it is valid: no
    call is made if and only if its [query] is falsy (absent, null, empty
    text, 0, false, empty list or object) or its [test_input] or
    [test_output] is absent or null. *)
Theorem no_call_iff_invalid (py : Python) (backend : Backend) (cfg : Config)
        (name : str) (d : dict) (w : World) :
  call_count (snd (process_single_problem py backend cfg name d w)) = call_count w
  <-> truthy (dict_get d (u "query")) = false
      \/ dict_get d (u "test_input") = VNone
      \/ dict_get d (u "test_output") = VNone.
Proof.
  rewrite <- valid_problem_false.
  destruct (valid_problem (dict_get d (u "query")) (dict_get d (u "test_input"))
                          (dict_get d (u "test_output"))) eqn:Hv.
  - split; [|discriminate]. intros H. exfalso. revert H.
    rewrite (process_single_problem_valid py backend cfg name d w Hv).
    cbv zeta.
    set (run := generate_and_test_code py backend cfg _ _ _).
    assert (Hs : call_count (snd run) = S (S (call_count w))
                 \/ call_count (snd run) = S (call_count w)).
    { subst run. unfold call_count. rewrite generate_sent, length_app.
      cbn [printed sent length].
      match goal with |- context [length ?l] =>
        match l with
        | sent w => fail 1
        | _ => assert (Hl : (length l <= 1)%nat)
        end
      end.
      { destruct (backend _ _) as [text| | |]; try (cbn [length]; lia).
        destruct (execute_code_safely py (extract_python_code text) _) as [[r e]|];
          [|cbn [length]; lia].
        destruct (error_truthy e && (MAX_RETRIES cfg >? 0)); cbn [length]; lia. }
      lia. }
    destruct (fst run) as [[[code actual] error]|e];
      unfold call_count in *; cbn [snd printed sent]; lia.
  - split; [reflexivity|]. intros _.
    now rewrite (process_single_problem_invalid py backend cfg name d w Hv).
Qed.

(** ** More on process_json_file *)

Section Origins.

Variable py : Python.
Variable backend : Backend.
Variable cfg : Config.

(** Where an exception that leaves an evaluation comes from. *)
Lemma generate_raise query test_input w e :
  fst (generate_and_test_code py backend cfg query test_input w) = Raise e ->
  leaves_generated_code py backend test_input e \/ call_raised backend e.
Proof.
  destruct (backend (sent w) (INITIAL_PROMPT_TEMPLATE (str_ py query)))
    as [text| |d|e0] eqn:Hb.
  - destruct (execute_code_safely py (extract_python_code text) test_input)
      as [[result error]|e1] eqn:He.
    + destruct (error_truthy error && (MAX_RETRIES cfg >? 0)) eqn:Hr.
      * rewrite (generate_retry py backend cfg query test_input w text result error
                   Hb He Hr).
        cbv zeta.
        destruct (backend (sent (before_retry py w query (extract_python_code text)
                                              (fmt_opt error)))
                          (RETRY_PROMPT_TEMPLATE (str_ py query) (fmt_opt error)
                                                 (extract_python_code text)))
          as [text2| |d2|e2] eqn:Hb2.
        -- destruct (execute_code_safely py (extract_python_code text2) test_input)
             as [[r2 er2]|e3] eqn:He2; cbn [fst]; [discriminate|].
           intros [= <-]. left. unfold leaves_generated_code. eauto.
        -- discriminate.
        -- discriminate.
        -- cbn [fst]. intros [= <-]. right. unfold call_raised. eauto.
      * rewrite (generate_single_attempt py backend cfg query test_input w text
                   result error Hb He Hr). discriminate.
    + rewrite (generate_first_raises py backend cfg query test_input w text e1 Hb He).
      cbn [fst]. intros [= <-]. left. unfold leaves_generated_code. eauto.
  - rewrite generate_no_response; [discriminate | now rewrite Hb].
  - rewrite generate_no_response; [discriminate | now rewrite Hb].
  - rewrite (generate_malformed py backend cfg query test_input w e0 Hb).
    cbn [fst]. intros [= <-]. right. unfold call_raised. eauto.
Qed.

Lemma process_single_problem_raise name d w e :
  fst (process_single_problem py backend cfg name d w) = Raise e ->
  leaves_generated_code py backend (dict_get d (u "test_input")) e \/ call_raised backend e.
Proof.
  destruct (valid_problem (dict_get d (u "query")) (dict_get d (u "test_input"))
                          (dict_get d (u "test_output"))) eqn:Hv.
  - rewrite (process_single_problem_valid py backend cfg name d w Hv). cbv zeta.
    destruct (fst (generate_and_test_code py backend cfg _ _ _))
      as [[[code actual] error]|e0] eqn:Hg; cbn [fst]; [discriminate|].
    intros [= <-]. exact (generate_raise _ _ _ _ Hg).
  - rewrite (process_single_problem_invalid py backend cfg name d w Hv). discriminate.
Qed.

Lemma process_multiple_problems_raise items w e :
  fst (_process_multiple_problems py backend cfg items w) = Raise e ->
  (exists key r, In (key, VDict r) items
                 /\ leaves_generated_code py backend (dict_get r (u "test_input")) e)
  \/ call_raised backend e.
Proof.
  revert w. induction items as [|[key v] items IH]; intros w; [discriminate|].
  rewrite process_multiple_problems_cons.
  assert (Hnext : forall w',
             fst (_process_multiple_problems py backend cfg items w') = Raise e ->
             (exists k r, In (k, VDict r) ((key, v) :: items)
                          /\ leaves_generated_code py backend
                               (dict_get r (u "test_input")) e)
             \/ call_raised backend e).
  { intros w' H. destruct (IH w' H) as [(k & r & Hin & Hl)|Hc]; [left | now right].
    exists k, r. split; [now right | exact Hl]. }
  destruct v; try apply Hnext.
  destruct (process_single_problem py backend cfg key d w) as [[[]|e0] w'] eqn:Hp.
  - apply Hnext.
  - cbn [fst]. intros [= <-].
    destruct (process_single_problem_raise key d w e0) as [Hl|Hc];
      [now rewrite Hp | left | now right].
    exists key, d. split; [now left | exact Hl].
Qed.

(** What leaves the handlers of [process_json_file]: the exception of the
    body when it is outside [Exception], or what [str] raised for one
    inside. *)
Lemma try_except_file_raise file_path body w e :
  fst (try_except_file file_path body w) = Raise e ->
  exists e1,
    fst (body w) = Raise e1
    /\ ((e = e1 /\ isinstance_Exception e1 = false)
        \/ (isinstance_Exception e1 = true /\ str_exception e1 = Raise e)).
Proof.
  unfold try_except_file.
  destruct (body w) as [[[]|e1] w']; [discriminate|].
  destruct (raised_kind e1) eqn:Hk.
  1, 2: unfold bind, lift, print;
    destruct (str_exception e1) as [message|e2] eqn:Hs; cbn [fst]; [discriminate|];
    intros [= <-]; exists e1; split; [reflexivity|]; right;
    split; [unfold isinstance_Exception; now rewrite Hk | exact Hs].
  cbn [fst]. intros [= <-]. exists e1. split; [reflexivity|]. left.
  split; [reflexivity|]. unfold isinstance_Exception. now rewrite Hk.
Qed.

Lemma process_json_file_raise file_path loaded w e :
  fst (process_json_file py backend cfg file_path loaded w) = Raise e ->
  (isinstance_Exception e = false
   /\ ((exists e0, loaded = Raise e0 /\ e = Plain e0)
       \/ (exists test_input, input_of_file loaded test_input
                              /\ leaves_generated_code py backend test_input e)
       \/ call_raised backend e))
  \/ (exists e1 test_input,
         input_of_file loaded test_input
         /\ leaves_generated_code py backend test_input e1
         /\ isinstance_Exception e1 = true
         /\ str_exception e1 = Raise e).
Proof.
  unfold process_json_file. intros H.
  apply try_except_file_raise in H as (e1 & Hbody & Hcase).
  assert (Horigin : (exists e0, loaded = Raise e0 /\ e1 = Plain e0)
                    \/ (exists test_input, input_of_file loaded test_input
                          /\ leaves_generated_code py backend test_input e1)
                    \/ call_raised backend e1
                    \/ (exists data attr, e1 = Plain (AttributeError data attr))).
  { revert Hbody. unfold bind at 1, lift at 1.
    destruct loaded as [data|e0]; cbn [of_lib];
      [|cbn [fst]; intros [= <-]; left; eauto].
    unfold bind at 1, lift at 1.
    destruct data; cbn [_is_single_problem_format];
      try (cbn [fst]; intros [= <-]; right; right; right; eauto).
    unfold input_of_file.
    destruct (forallb (has_key d) required_keys); intros H.
    - destruct (process_single_problem_raise _ d w e1 H) as [Hl|Hc];
        [right; left; eauto | right; right; left; exact Hc].
    - destruct (process_multiple_problems_raise d w e1 H)
        as [(key & r & Hin & Hl)|Hc]; [|right; right; left; exact Hc].
      right; left. exists (dict_get r (u "test_input")). split; [|exact Hl].
      right. eauto. }
  destruct Hcase as [[-> Hk]|[Hk Hs]].
  - left. split; [exact Hk|].
    destruct Horigin as [H|[H|[H|(data & attr & ->)]]];
      [now left | now right; left | now right; right | discriminate].
  - right.
    destruct Horigin as [(e0 & _ & ->)|[(ti & Hi & Hl)|[(h & p & e0 & _ & ->)|(data & attr & ->)]]];
      [discriminate | eauto 6 | discriminate | discriminate].
Qed.

End Origins.



(** An instance of [Exception] does leave [process_json_file] when the
    descriptions themselves raise: [f] raises [E()], [str] of it raises
    [F()] in the handler of [execute_code_safely], and [str] of that raises
    [ValueError('inner')] in the handler of [process_json_file]. *)
Example unprintable_exception_leaves_file :
  execute_code_safely MockUnprintable.python MockUnprintable.code_unprintable (VInt 5)
  = Raise MockUnprintable.F_instance
  /\ fst (process_json_file MockUnprintable.python MockUnprintable.answering
            source_config (u "/cases/a.json") (Ret MockEnv.square_problem) Mock.w0)
     = Raise (Plain (Mock.ValueError (u "inner")))
  /\ isinstance_Exception (Plain (Mock.ValueError (u "inner"))) = true.
Proof. vm_compute. repeat split; reflexivity. Qed.

(** X16.  A file that cannot be read or decoded costs one console line and
    nothing else: "Invalid JSON in" for a [JSONDecodeError], "Failed to
    process" for any other instance of [Exception]; no completion call is
    made. *)
Theorem unreadable_file_reported (py : Python) (backend : Backend) (cfg : Config)
        (file_path : str) (e : Exc) (w : World) :
  is_Exception e = true ->
  process_json_file py backend cfg file_path (Raise e) w
  = (Ret tt,
     printed w [(match exc_kind e with
                 | JSONDecodeError => u "ERROR: Invalid JSON in "
                 | _ => u "ERROR: Failed to process "
                 end) ++ file_path ++ u ": " ++ exc_str e ++ nl]).
Proof.
  intros H. unfold process_json_file, try_except_file.
  unfold bind at 1, lift at 1. cbn [of_lib raised_kind]. unfold is_Exception in H.
  destruct (exc_kind e); [reflexivity | reflexivity | discriminate].
Qed.

Lemma unreadable_file_reported_witness :
  let e := MkExc JSONDecodeError (u "Expecting value: line 1 column 1 (char 0)") in
  is_Exception e = true
  /\ process_json_file Mock.python MockEnv.squaring source_config
       (u "/cases/c.json") (Raise e) Mock.w0
     = (Ret tt,
        printed Mock.w0
          [u "ERROR: Invalid JSON in /cases/c.json: Expecting value: line 1 column 1 (char 0)"
           ++ nl]).
Proof.
  intros e. split; [reflexivity|].
  rewrite (unreadable_file_reported Mock.python MockEnv.squaring source_config
             (u "/cases/c.json") e Mock.w0 eq_refl).
  vm_compute. reflexivity.
Defined.

(** X17.  A JSON file whose top level is not an object (a list, a text, a
    number, a boolean or null) is reported with the attribute error of
    [data.keys()], and nothing is evaluated. *)
Theorem top_level_not_object (py : Python) (backend : Backend) (cfg : Config)
        (file_path : str) (data : PyVal) (w : World) :
  is_dict data = false ->
  process_json_file py backend cfg file_path (Ret data) w
  = (Ret tt,
     printed w [u "ERROR: Failed to process " ++ file_path ++ u ": '"
                ++ type_name data ++ u "' object has no attribute 'keys'" ++ nl]).
Proof.
  intros H. unfold process_json_file, try_except_file, bind, lift.
  destruct data; try discriminate; cbn [of_lib _is_single_problem_format];
    unfold AttributeError, print, printed;
    cbn [raised_kind str_exception exc_kind exc_str];
    rewrite <- ?app_assoc; reflexivity.
Qed.

Lemma top_level_not_object_witness :
  is_dict (VList [MockEnv.square_problem]) = false
  /\ process_json_file Mock.python MockEnv.squaring source_config
       (u "/cases/list.json") (Ret (VList [MockEnv.square_problem])) Mock.w0
     = (Ret tt,
        printed Mock.w0
          [u "ERROR: Failed to process /cases/list.json: 'list' object has no attribute 'keys'"
           ++ nl]).
Proof.
  split; [reflexivity|].
  rewrite (top_level_not_object Mock.python MockEnv.squaring source_config
             (u "/cases/list.json") (VList [MockEnv.square_problem]) Mock.w0 eq_refl).
  vm_compute. reflexivity.
Defined.

(** ** The problem name of a single-problem file *)

Lemma has_char_rev (c : char) (s : str) : has_char c (rev s) = has_char c s.
Proof.
  unfold has_char. induction s as [|a s IH]; [reflexivity|].
  cbn [rev existsb]. rewrite existsb_app. cbn [existsb].
  rewrite orb_false_r, orb_comm. f_equal. exact IH.
Qed.

Lemma after_last_slash_app (a b : str) :
  has_char 47%N a = false -> after_last_slash (a ++ 47%N :: b) = a.
Proof.
  unfold has_char. induction a as [|c a IH]; cbn [app after_last_slash existsb].
  - reflexivity.
  - intros H. apply orb_false_iff in H as [H1 H2].
    rewrite (N.eqb_sym c 47%N), H1. now rewrite IH.
Qed.

Lemma basename_join (directory file : str) :
  has_char 47%N file = false -> basename (directory ++ u "/" ++ file) = file.
Proof.
  intros H. unfold basename. rewrite !rev_app_distr, <- app_assoc.
  change (rev (u "/")) with [47%N]. cbn [app].
  rewrite after_last_slash_app; [apply rev_involutive|].
  now rewrite has_char_rev.
Qed.

Lemma replace_aux_skip (old new s : str) (k : nat) :
  (length s <= k)%nat -> replace_aux old new k s = [].
Proof.
  revert k. induction s as [|c s IH]; intros k H; [reflexivity|].
  cbn [length] in H. destruct k as [|k]; [lia|].
  cbn [replace_aux]. apply IH. lia.
Qed.

(** Removing [old] from [stem ++ old], where [old] first occurs at the end
    of [stem], leaves [stem]. *)
Lemma replace_suffix (stem old : str) :
  old <> [] ->
  find (stem ++ old) old 0 = len stem ->
  replace (stem ++ old) old [] = stem.
Proof.
  intros Hold. unfold replace. rewrite find_0.
  induction stem as [|c stem IH]; cbn [app].
  - intros _. destruct old as [|a old]; [congruence|].
    cbn [replace_aux].
    assert (E : startswith (a :: old) (a :: old) = true).
    { clear. generalize (a :: old). intros l. induction l as [|x l IH]; [reflexivity|].
      cbn [startswith]. now rewrite N.eqb_refl. }
    rewrite E. cbn [app]. apply replace_aux_skip. cbn [length]. lia.
  - cbn [find_at replace_aux].
    destruct (startswith (c :: stem ++ old) old) eqn:E.
    + unfold len. cbn [length]. lia.
    + intros H. f_equal. apply IH.
      assert (Hne : find_at (stem ++ old) old 1 <> -1).
      { change (0 + 1) with 1 in H. rewrite H. pose proof (len_nonneg (c :: stem)). lia. }
      rewrite (find_at_shift (stem ++ old) old 1 0 ltac:(lia) Hne).
      change (0 + 1) with 1 in H. rewrite H. unfold len. cbn [length]. lia.
Qed.

(** X18.  For a file [directory/stem.json], where [stem] holds no slash and
    [.json] occurs in [stem.json] at the end only, a top-level object with
    the three keys is evaluated as one record named [stem]. *)
Theorem single_problem_named_after_file (py : Python) (backend : Backend)
        (cfg : Config) (directory stem : str) (d : dict) (w : World) :
  has_char 47%N stem = false ->
  find (stem ++ u ".json") (u ".json") 0 = len stem ->
  forallb (has_key d) required_keys = true ->
  let file_path := directory ++ u "/" ++ stem ++ u ".json" in
  replace (basename file_path) (u ".json") [] = stem
  /\ process_json_file py backend cfg file_path (Ret (VDict d)) w
     = try_except_file file_path (process_single_problem py backend cfg stem d) w.
Proof.
  intros Hslash Hjson Hkeys file_path.
  assert (Hname : replace (basename file_path) (u ".json") [] = stem).
  { subst file_path. rewrite basename_join.
    - apply replace_suffix; [discriminate | exact Hjson].
    - unfold has_char in *. rewrite existsb_app. apply orb_false_iff.
      split; [exact Hslash | reflexivity]. }
  split; [exact Hname|].
  unfold process_json_file, try_except_file, bind, lift.
  cbn [of_lib _is_single_problem_format]. rewrite Hkeys. cbv zeta. now rewrite Hname.
Qed.

Lemma single_problem_named_after_file_witness :
  let d := [(u "query", VStr (u "Square the number")); (u "test_input", VInt 5);
            (u "test_output", VStr (u "25"))] in
  has_char 47%N (u "square") = false
  /\ find (u "square" ++ u ".json") (u ".json") 0 = len (u "square")
  /\ forallb (has_key d) required_keys = true
  /\ nth 1 (stdout (snd (process_json_file Mock.python MockEnv.squaring source_config
                           (u "/cases" ++ u "/" ++ u "square" ++ u ".json")
                           (Ret (VDict d)) Mock.w0))) []
     = u "Testing Problem: square".
Proof.
  intros d.
  assert (H1 : has_char 47%N (u "square") = false) by reflexivity.
  assert (H2 : find (u "square" ++ u ".json") (u ".json") 0 = len (u "square"))
    by (vm_compute; reflexivity).
  assert (H3 : forallb (has_key d) required_keys = true) by reflexivity.
  split; [exact H1|]. split; [exact H2|]. split; [exact H3|].
  rewrite (proj2 (single_problem_named_after_file Mock.python MockEnv.squaring
                    source_config (u "/cases") (u "square") d Mock.w0 H1 H2 H3)).
  vm_compute. reflexivity.
Defined.

(** ** Ordering of names *)

Lemma str_leb_total (a b : str) : str_leb a b = true \/ str_leb b a = true.
Proof.
  revert b. induction a as [|x a IH]; intros b; [now left|].
  destruct b as [|y b]; [now right|]. cbn [str_leb].
  destruct (N.ltb_spec x y) as [H|H].
  - now left.
  - destruct (N.ltb_spec y x) as [H'|H']; [now right|]. apply IH.
Qed.

Lemma str_leb_antisym (a b : str) :
  str_leb a b = true -> str_leb b a = true -> a = b.
Proof.
  revert b. induction a as [|x a IH]; intros b.
  - destruct b; [reflexivity | discriminate].
  - destruct b as [|y b]; [discriminate|]. cbn [str_leb].
    destruct (N.ltb_spec x y) as [H|H].
    + destruct (N.ltb_spec y x) as [H'|H']; [lia|]. intros _ H0.
      destruct (N.ltb_spec y x); [lia | discriminate].
    + destruct (N.ltb_spec y x) as [H'|H']; [discriminate|].
      intros H1 H2. assert (x = y) by lia. subst. f_equal. now apply IH.
Qed.

Lemma str_leb_trans (a b c : str) :
  str_leb a b = true -> str_leb b c = true -> str_leb a c = true.
Proof.
  revert b c. induction a as [|x a IH]; intros b c; [reflexivity|].
  destruct b as [|y b]; [discriminate|].
  destruct c as [|z c]; [intros _; discriminate|]. cbn [str_leb].
  destruct (N.ltb_spec x y) as [Hxy|Hxy].
  - intros _. destruct (N.ltb_spec y z) as [Hyz|Hyz].
    + intros _. destruct (N.ltb_spec x z); [reflexivity | lia].
    + destruct (N.ltb_spec z y) as [Hzy|Hzy]; [discriminate|].
      intros _. destruct (N.ltb_spec x z); [reflexivity | lia].
  - destruct (N.ltb_spec y x) as [Hyx|Hyx]; [discriminate|].
    intros Hab. destruct (N.ltb_spec y z) as [Hyz|Hyz].
    + intros _. destruct (N.ltb_spec x z); [reflexivity | lia].
    + destruct (N.ltb_spec z y) as [Hzy|Hzy]; [discriminate|].
      intros Hbc. destruct (N.ltb_spec x z); [reflexivity|].
      destruct (N.ltb_spec z x); [lia|]. now apply (IH b c).
Qed.

Lemma str_leb_false (a b : str) : str_leb a b = false -> str_leb b a = true.
Proof. intros H. destruct (str_leb_total a b); congruence. Qed.

Lemma insert_sorted_perm (x : str) (l : list str) :
  Permutation (insert_sorted x l) (x :: l).
Proof.
  induction l as [|y l IH]; cbn [insert_sorted]; [reflexivity|].
  destruct (str_leb x y); [reflexivity|].
  rewrite IH. apply perm_swap.
Qed.

Lemma insert_sorted_sorted (x : str) (l : list str) :
  StronglySorted (fun a b => str_leb a b = true) l ->
  StronglySorted (fun a b => str_leb a b = true) (insert_sorted x l).
Proof.
  induction 1 as [|y l Hl IH Hy]; cbn [insert_sorted].
  - constructor; constructor.
  - destruct (str_leb x y) eqn:E.
    + constructor; [now constructor|]. constructor; [exact E|].
      eapply Forall_impl; [|exact Hy]. intros b Hb. now apply (str_leb_trans x y b).
    + constructor; [exact IH|].
      rewrite Forall_forall in *. intros b Hb.
      apply (Permutation_in _ (insert_sorted_perm x l)) in Hb.
      destruct Hb as [<-|Hb]; [now apply str_leb_false | now apply Hy].
Qed.

Lemma insert_sorted_comm (x y : str) (l : list str) :
  insert_sorted x (insert_sorted y l) = insert_sorted y (insert_sorted x l).
Proof.
  induction l as [|z l IH]; cbn [insert_sorted].
  - destruct (str_leb x y) eqn:Exy, (str_leb y x) eqn:Eyx; try reflexivity.
    + now rewrite (str_leb_antisym x y Exy Eyx).
    + apply str_leb_false in Exy. congruence.
  - destruct (str_leb y z) eqn:Eyz, (str_leb x z) eqn:Exz; cbn [insert_sorted].
    + destruct (str_leb x y) eqn:Exy, (str_leb y x) eqn:Eyx;
        rewrite ?Exz, ?Eyz; try reflexivity.
      * now rewrite (str_leb_antisym x y Exy Eyx).
      * apply str_leb_false in Exy. congruence.
    + rewrite Eyz.
      destruct (str_leb x y) eqn:Exy.
      * rewrite (str_leb_trans x y z Exy Eyz) in Exz. discriminate.
      * now rewrite Exz.
    + rewrite Exz.
      destruct (str_leb y x) eqn:Eyx.
      * rewrite (str_leb_trans y x z Eyx Exz) in Eyz. discriminate.
      * now rewrite Eyz.
    + rewrite Exz, Eyz. now rewrite IH.
Qed.

Lemma sorted_perm_eq (l1 l2 : list str) :
  Permutation l1 l2 -> sorted l1 = sorted l2.
Proof.
  unfold sorted. induction 1; cbn [fold_right].
  - reflexivity.
  - now f_equal.
  - apply insert_sorted_comm.
  - congruence.
Qed.

Lemma filter_perm {A} (p : A -> bool) (l1 l2 : list A) :
  Permutation l1 l2 -> Permutation (filter p l1) (filter p l2).
Proof.
  induction 1; cbn [filter].
  - reflexivity.
  - destruct (p x); [now constructor | assumption].
  - destruct (p x), (p y); try reflexivity. apply perm_swap.
  - etransitivity; eassumption.
Qed.

(** X19.  [sorted] arranges the names it is given in ascending order of code
    points, keeping each of them, and the arrangement does not depend on the
    order in which they come. *)
Theorem sorted_ascending (names : list str) :
  Permutation (sorted names) names
  /\ StronglySorted (fun a b => str_leb a b = true) (sorted names)
  /\ forall names', Permutation names names' -> sorted names' = sorted names.
Proof.
  split; [|split].
  - unfold sorted. induction names as [|x l IH]; cbn [fold_right]; [reflexivity|].
    rewrite insert_sorted_perm. now constructor.
  - unfold sorted. induction names as [|x l IH]; cbn [fold_right]; [constructor|].
    now apply insert_sorted_sorted.
  - intros names' H. symmetry. now apply sorted_perm_eq.
Qed.

(** ** run and main *)

Section RunnerFacts.

Variable py : Python.
Variable backend : Backend.
Variable cfg : Config.
Variable env : Env.

Lemma print_startup_info_eq t directory w :
  _print_startup_info t directory w = (Ret tt, printed w (startup_lines t directory)).
Proof.
  unfold _print_startup_info, startup_lines, bind, print, printed.
  cbv beta iota zeta. cbn [sent stdout]. rewrite <- !app_assoc. reflexivity.
Qed.

Lemma print_completion_message_eq w :
  _print_completion_message w = (Ret tt, printed w completion_lines).
Proof.
  unfold _print_completion_message, completion_lines, bind, print, printed.
  cbv beta iota zeta. cbn [sent stdout]. rewrite <- !app_assoc. reflexivity.
Qed.

Lemma check_ollama_health_eq t w :
  check_ollama_health env t w
  = match health env (ollama_host t ++ u "/api/tags") with
    | Ret _ => (Ret true, printed w [healthy_line])
    | Raise e =>
        if is_Exception e then (Ret false, printed w (unhealthy_lines t e))
        else (Raise (Plain e), w)
    end.
Proof.
  unfold check_ollama_health.
  destruct (health env (ollama_host t ++ u "/api/tags")) as [[]|e]; [reflexivity|].
  destruct (is_Exception e); [|reflexivity].
  unfold bind, print, ret, printed, unhealthy_lines. cbv beta iota zeta.
  cbn [sent stdout]. rewrite <- !app_assoc. reflexivity.
Qed.

Lemma discover_json_files_eq directory w :
  _discover_json_files env directory w
  = match listdir env directory with
    | Ret all_files => (Ret (filter (fun f => endswith f (u ".json")) all_files), w)
    | Raise e =>
        if is_Exception e
        then (Ret [],
              printed w [u "ERROR: Cannot read directory " ++ directory ++ u ": "
                         ++ exc_str e])
        else (Raise (Plain e), w)
    end.
Proof.
  unfold _discover_json_files.
  destruct (listdir env directory) as [names|e]; [reflexivity|].
  destruct (is_Exception e); reflexivity.
Qed.

(** The whole of [run], step by step. *)
Lemma run_eq t directory w :
  run py backend cfg env t directory w
  = match check_ollama_health env t (printed w (startup_lines t directory)) with
    | (Ret true, w1) =>
        match _discover_json_files env directory w1 with
        | (Ret [], w2) => (Ret tt, printed w2 [no_files_line directory])
        | (Ret (f :: fs), w2) =>
            match process_files py backend cfg env directory (sorted (f :: fs))
                    (printed w2 [found_line (f :: fs)]) with
            | (Ret _, w3) => (Ret tt, printed w3 completion_lines)
            | (Raise e, w3) => (Raise e, w3)
            end
        | (Raise e, w2) => (Raise e, w2)
        end
    | (Ret false, w1) => (Raise (sys_exit 1), w1)
    | (Raise e, w1) => (Raise e, w1)
    end.
Proof.
  unfold run. unfold bind at 1. rewrite print_startup_info_eq.
  unfold bind at 1.
  destruct (check_ollama_health env t (printed w (startup_lines t directory)))
    as [[[|]|e] w1]; cbn [negb]; [|reflexivity|reflexivity].
  unfold bind at 1.
  destruct (_discover_json_files env directory w1) as [[[|f fs]|e] w2];
    [reflexivity| |reflexivity].
  unfold bind at 1. rewrite print_eq. unfold bind at 1.
  fold (found_line (f :: fs)).
  destruct (process_files py backend cfg env directory (sorted (f :: fs))
              (printed w2 [found_line (f :: fs)])) as [[[]|e] w3]; [|reflexivity].
  apply print_completion_message_eq.
Qed.

Lemma process_files_cons directory f rest w :
  process_files py backend cfg env directory (f :: rest) w
  = match process_json_file py backend cfg (path_join directory f)
            (load_json env (path_join directory f)) w with
    | (Ret _, w') => process_files py backend cfg env directory rest w'
    | (Raise e, w') => (Raise e, w')
    end.
Proof. reflexivity. Qed.

(** With safe answers and well-behaved file reads, every file of the loop
    is processed and the loop returns. *)
Lemma process_files_returns directory files w :
  safe_answers py backend ->
  reads_raise_Exceptions env ->
  fst (process_files py backend cfg env directory files w) = Ret tt.
Proof.
  intros [Hpy Hbk] Hload. revert w.
  induction files as [|f rest IH]; intros w; [reflexivity|].
  rewrite process_files_cons.
  destruct (process_json_file py backend cfg (path_join directory f)
              (load_json env (path_join directory f)) w) as [[[]|e] w'] eqn:Hp.
  - apply IH.
  - exfalso.
    assert (H : fst (process_json_file py backend cfg (path_join directory f)
                       (load_json env (path_join directory f)) w) = Raise e)
      by now rewrite Hp.
    apply process_json_file_raise in H
      as [[Hk [(e0 & H & ->)|[(ti & _ & h & p & text & Hb & He)|(h & p & e0 & H & ->)]]]
         |(e1 & ti & _ & (h & p & text & Hb & He) & _)].
    + apply Hload in H. unfold isinstance_Exception in Hk. cbn [raised_kind] in Hk.
      unfold is_Exception in H. congruence.
    + exact (Hpy _ _ _ _ _ Hb He).
    + apply Hbk in H. unfold isinstance_Exception in Hk. cbn [raised_kind] in Hk.
      unfold is_Exception in H. congruence.
    + exact (Hpy _ _ _ _ _ Hb He).
Qed.

End RunnerFacts.

Lemma process_files_with_listing (py : Python) (backend : Backend) (cfg : Config)
      (env : Env) (names : list str) directory files w :
  process_files py backend cfg (with_listing env names) directory files w
  = process_files py backend cfg env directory files w.
Proof.
  revert w. induction files as [|f rest IH]; intros w; [reflexivity|].
  rewrite !process_files_cons. cbn [with_listing load_json].
  destruct (process_json_file py backend cfg (path_join directory f)
              (load_json env (path_join directory f)) w) as [[[]|e] w'];
    [apply IH | reflexivity].
Qed.

(** X20.  When the health probe fails with an instance of [Exception], [run]
    prints the start-up lines and the three lines of the failure, then raises
    [SystemExit(1)]: no directory is listed, no file is read and no prompt is
    sent. *)
Theorem unhealthy_backend_aborts (py : Python) (backend : Backend) (cfg : Config)
        (env : Env) (t : Tester) (directory : str) (w : World) (e : Exc) :
  health env (ollama_host t ++ u "/api/tags") = Raise e ->
  is_Exception e = true ->
  run py backend cfg env t directory w
  = (Raise (sys_exit 1),
     printed w (startup_lines t directory ++ unhealthy_lines t e)).
Proof.
  intros Hh He. rewrite run_eq, check_ollama_health_eq, Hh, He.
  now rewrite printed_printed.
Qed.

Lemma unhealthy_backend_aborts_witness :
  let e := MkExc OtherException (u "Connection refused") in
  let out := run Mock.python MockEnv.squaring source_config (MockEnv.env false)
               default_tester (u "/cases") Mock.w0 in
  health (MockEnv.env false) (ollama_host default_tester ++ u "/api/tags") = Raise e
  /\ is_Exception e = true
  /\ fst out = Raise (sys_exit 1)
  /\ sent (snd out) = []
  /\ length (stdout (snd out)) = 7%nat.
Proof.
  intros e out.
  assert (H1 : health (MockEnv.env false) (ollama_host default_tester ++ u "/api/tags")
               = Raise e) by reflexivity.
  assert (H2 : is_Exception e = true) by reflexivity.
  split; [exact H1|]. split; [exact H2|].
  subst out.
  rewrite (unhealthy_backend_aborts Mock.python MockEnv.squaring source_config
             (MockEnv.env false) default_tester (u "/cases") Mock.w0 e H1 H2).
  repeat split.
Defined.

(** X21.  With a healthy backend, a directory that cannot be listed or that
    holds no name ending in [.json] ends the run normally after the warning:
    nothing is read and no prompt is sent. *)
Theorem no_json_files_warning (py : Python) (backend : Backend) (cfg : Config)
        (env : Env) (t : Tester) (directory : str) (w : World) :
  (exists r, health env (ollama_host t ++ u "/api/tags") = Ret r) ->
  match listdir env directory with
  | Ret names => forallb (fun f => negb (endswith f (u ".json"))) names = true
  | Raise e => is_Exception e = true
  end ->
  run py backend cfg env t directory w
  = (Ret tt,
     printed w (startup_lines t directory
                ++ healthy_line
                   :: match listdir env directory with
                      | Ret _ => []
                      | Raise e =>
                          [u "ERROR: Cannot read directory " ++ directory ++ u ": "
                           ++ exc_str e]
                      end
                ++ [no_files_line directory])).
Proof.
  intros [r Hh] Hl. rewrite run_eq, check_ollama_health_eq, Hh.
  rewrite discover_json_files_eq.
  destruct (listdir env directory) as [names|e].
  - assert (E : filter (fun f => endswith f (u ".json")) names = []).
    { induction names as [|f names IH]; [reflexivity|].
      cbn [forallb] in Hl. apply andb_true_iff in Hl as [H1 H2].
      cbn [filter]. destruct (endswith f (u ".json")); [discriminate|]. now apply IH. }
    rewrite E, !printed_printed. reflexivity.
  - rewrite Hl, !printed_printed. reflexivity.
Qed.

Lemma no_json_files_warning_witness :
  let out := run Mock.python MockEnv.squaring source_config (MockEnv.env true)
               default_tester (u "/nowhere") Mock.w0 in
  (exists r, health (MockEnv.env true) (ollama_host default_tester ++ u "/api/tags")
             = Ret r)
  /\ fst out = Ret tt
  /\ sent (snd out) = []
  /\ last (stdout (snd out)) [] = no_files_line (u "/nowhere").
Proof.
  intros out.
  assert (H1 : exists r, health (MockEnv.env true)
                           (ollama_host default_tester ++ u "/api/tags") = Ret r)
    by (exists tt; reflexivity).
  split; [exact H1|]. subst out.
  rewrite (no_json_files_warning Mock.python MockEnv.squaring source_config
             (MockEnv.env true) default_tester (u "/nowhere") Mock.w0 H1);
    [|reflexivity].
  split; [reflexivity|]. split; [reflexivity|]. vm_compute. reflexivity.
Defined.

(** X22.  The run does not depend on the order in which the directory is
    listed: two listings with the same names give the same console output,
    the same prompts and the same outcome. *)
Theorem run_independent_of_listing_order (py : Python) (backend : Backend)
        (cfg : Config) (env : Env) (t : Tester) (directory : str) (w : World)
        (names names' : list str) :
  listdir env directory = Ret names ->
  Permutation names names' ->
  run py backend cfg (with_listing env names') t directory w
  = run py backend cfg env t directory w.
Proof.
  intros Hl Hp. rewrite !run_eq, !check_ollama_health_eq.
  cbn [with_listing health].
  destruct (health env (ollama_host t ++ u "/api/tags")) as [r|e];
    [|destruct (is_Exception e); reflexivity].
  rewrite !discover_json_files_eq. cbn [with_listing listdir]. rewrite Hl.
  pose proof (filter_perm (fun f => endswith f (u ".json")) _ _ Hp) as Hf.
  destruct (filter (fun f => endswith f (u ".json")) names) as [|f fs] eqn:E;
    destruct (filter (fun f => endswith f (u ".json")) names') as [|f' fs'] eqn:E'.
  - reflexivity.
  - apply Permutation_length in Hf. discriminate.
  - apply Permutation_length in Hf. discriminate.
  - rewrite process_files_with_listing.
    rewrite (sorted_perm_eq _ _ Hf). unfold found_line.
    now rewrite (Permutation_length Hf).
Qed.

Lemma run_independent_of_listing_order_witness :
  let names := [u "c.json"; u "notes.txt"; u "a.json"; u "b.json"] in
  let names' := [u "a.json"; u "b.json"; u "c.json"; u "notes.txt"] in
  listdir (MockEnv.env true) (u "/cases") = Ret names
  /\ Permutation names names'
  /\ run MockSquare.python MockEnv.squaring source_config
         (with_listing (MockEnv.env true) names') default_tester (u "/cases") Mock.w0
     = run MockSquare.python MockEnv.squaring source_config
           (MockEnv.env true) default_tester (u "/cases") Mock.w0.
Proof.
  intros names names'.
  assert (H1 : listdir (MockEnv.env true) (u "/cases") = Ret names) by reflexivity.
  assert (H2 : Permutation names names')
    by exact (Permutation_app_comm [u "c.json"; u "notes.txt"]
                                   [u "a.json"; u "b.json"]).
  split; [exact H1|]. split; [exact H2|].
  exact (run_independent_of_listing_order MockSquare.python MockEnv.squaring
           source_config (MockEnv.env true) default_tester (u "/cases") Mock.w0
           names names' H1 H2).
Defined.

(** X23.  [main] checks its arguments before anything else: with a wrong
    number of arguments, a path that does not exist or a path that is not a
    directory it prints the matching message and raises [SystemExit(1)],
    without touching the backend. *)
Theorem main_rejects_bad_arguments (py : Python) (backend : Backend) (cfg : Config)
        (env : Env) (argv : list str) (w : World) :
  length argv <> 2%nat
  \/ path_exists env (nth 1 argv []) = false
  \/ path_isdir env (nth 1 argv []) = false ->
  main py backend cfg env argv w
  = (Raise (sys_exit 1),
     printed w
       (if negb (Nat.eqb (length argv) 2) then
          [u "Usage: python app.py <test_cases_directory>";
           u "Example: python app.py /test_cases"]
        else if negb (path_exists env (nth 1 argv [])) then
          [u "ERROR: Directory not found: " ++ nth 1 argv []]
        else
          [u "ERROR: Path is not a directory: " ++ nth 1 argv []])).
Proof.
  intros H. unfold main.
  destruct (Nat.eqb (length argv) 2) eqn:E; cbn [negb].
  - apply Nat.eqb_eq in E. cbv zeta.
    destruct (path_exists env (nth 1 argv [])) eqn:E1; cbn [negb].
    + destruct (path_isdir env (nth 1 argv [])) eqn:E2; cbn [negb].
      * destruct H as [H|[H|H]]; [contradiction | discriminate | discriminate].
      * reflexivity.
    + reflexivity.
  - unfold bind, print, lift, printed. cbv beta iota zeta. cbn [sent stdout].
    now rewrite <- app_assoc.
Qed.

Lemma main_rejects_bad_arguments_witness :
  let argv := [u "app.py"; u "/cases/a.json"] in
  (length argv <> 2%nat
   \/ path_exists (MockEnv.env true) (nth 1 argv []) = false
   \/ path_isdir (MockEnv.env true) (nth 1 argv []) = false)
  /\ main Mock.python MockEnv.squaring source_config (MockEnv.env true) argv Mock.w0
     = (Raise (sys_exit 1),
        printed Mock.w0 [u "ERROR: Path is not a directory: /cases/a.json"]).
Proof.
  intros argv.
  assert (H : length argv <> 2%nat
              \/ path_exists (MockEnv.env true) (nth 1 argv []) = false
              \/ path_isdir (MockEnv.env true) (nth 1 argv []) = false)
    by (right; right; reflexivity).
  split; [exact H|].
  rewrite (main_rejects_bad_arguments Mock.python MockEnv.squaring source_config
             (MockEnv.env true) argv Mock.w0 H).
  vm_compute. reflexivity.
Defined.

(** X24.  With a healthy backend and a directory that can be listed, when
    no answer of the backend yields code that lets an exception out of
    [execute_code_safely], and the completion call and the file reads raise
    instances of [Exception] only, the run always returns normally, whatever
    the files hold; when at least one name ends in [.json] its last line is
    the closing rule of the completion message.  The interpreter itself may
    well run programs that raise [SystemExit]: the condition is on what this
    backend answers. *)
Theorem run_completes (py : Python) (backend : Backend) (cfg : Config)
        (env : Env) (t : Tester) (directory : str) (w : World) (names : list str) :
  safe_answers py backend ->
  reads_raise_Exceptions env ->
  (exists r, health env (ollama_host t ++ u "/api/tags") = Ret r) ->
  listdir env directory = Ret names ->
  fst (run py backend cfg env t directory w) = Ret tt
  /\ (existsb (fun f => endswith f (u ".json")) names = true ->
      last (stdout (snd (run py backend cfg env t directory w))) []
      = rule80 61%N ++ nl).
Proof.
  intros Hpy Hload [r Hh] Hl.
  rewrite run_eq, check_ollama_health_eq, Hh, discover_json_files_eq, Hl.
  destruct (filter (fun f => endswith f (u ".json")) names) as [|f fs] eqn:E.
  - split; [reflexivity|]. intros Hex. exfalso.
    apply existsb_exists in Hex as (x & Hin & Hx).
    assert (Hin' : In x (filter (fun f => endswith f (u ".json")) names))
      by (apply filter_In; now split).
    rewrite E in Hin'. destruct Hin'.
  - pose proof (process_files_returns py backend cfg env directory (sorted (f :: fs))
                  (printed (printed (printed w (startup_lines t directory))
                                    [healthy_line]) [found_line (f :: fs)])
                  Hpy Hload) as Hp.
    destruct (process_files py backend cfg env directory (sorted (f :: fs)) _)
      as [[[]|e] w3]; [|discriminate].
    split; [reflexivity|]. intros _. cbn [snd printed stdout].
    unfold completion_lines. apply last_app_cons.
Qed.

(** The interpreter of the examples knows a program that raises
    [SystemExit], and the squaring backend never answers with it. *)
Lemma squaring_answers_are_safe : safe_answers Mock.python MockEnv.squaring.
Proof.
  split.
  - intros history prompt text test_input e Hb He.
    unfold MockEnv.squaring in Hb. injection Hb as <-.
    assert (Hx : extract_python_code (Mock.fenced Mock.code_square) = Mock.code_square)
      by (vm_compute; reflexivity).
    rewrite Hx in He.
    assert (Hexec : exec Mock.python Mock.code_square
                    = Ret [Mock.builtins; (u "square", Mock.MFunction Mock.square)])
      by (vm_compute; reflexivity).
    unfold execute_code_safely, execute_body in He. rewrite Hexec in He.
    cbn [obind] in He.
    change (find_target_function Mock.python
              [Mock.builtins; (u "square", Mock.MFunction Mock.square)])
      with (Some (Mock.MFunction Mock.square)) in He.
    unfold call_target in He. cbn [call Mock.python Mock.mcall Mock.square] in He.
    destruct test_input; cbn in He; discriminate He.
  - intros history prompt e H. discriminate H.
Qed.

Lemma mock_env_reads : reads_raise_Exceptions (MockEnv.env true).
Proof.
  intros path e. cbn [load_json MockEnv.env]. unfold MockEnv.load.
  destruct (str_eqb path (u "/cases/a.json")); [discriminate|].
  destruct (str_eqb path (u "/cases/b.json")); [discriminate|].
  destruct (str_eqb path (u "/cases/c.json")); now intros [= <-].
Qed.

(** Three files: a single record that passes, a mapping with one record, and
    a file that is not JSON. *)
Lemma run_completes_witness :
  let out := run Mock.python MockEnv.squaring source_config (MockEnv.env true)
               default_tester (u "/cases") Mock.w0 in
  safe_answers Mock.python MockEnv.squaring
  /\ reads_raise_Exceptions (MockEnv.env true)
  /\ fst out = Ret tt
  /\ last (stdout (snd out)) [] = rule80 61%N ++ nl
  /\ length (sent (snd out)) = 2%nat.
Proof.
  intros out.
  destruct (run_completes Mock.python MockEnv.squaring source_config
              (MockEnv.env true) default_tester (u "/cases") Mock.w0
              [u "c.json"; u "notes.txt"; u "a.json"; u "b.json"]
              squaring_answers_are_safe mock_env_reads
              (ex_intro _ tt eq_refl) eq_refl) as [Ha Hb].
  split; [exact squaring_answers_are_safe|]. split; [exact mock_env_reads|].
  split; [exact Ha|]. split; [apply Hb; reflexivity|].
  vm_compute. reflexivity.
Defined.

(** The same run, line by line at its ends. *)
Example run_three_files :
  let out := run MockSquare.python MockEnv.squaring source_config (MockEnv.env true)
               default_tester (u "/cases") Mock.w0 in
  nth 5 (stdout (snd out)) [] = u "Found 3 JSON file(s)" ++ nl
  /\ nth 7 (stdout (snd out)) [] = u "Testing Problem: a"
  /\ In (u "ERROR: Invalid JSON in /cases/c.json: Expecting value: line 1 column 1 (char 0)"
         ++ nl) (stdout (snd out)).
Proof.
  vm_compute. split; [reflexivity|]. split; [reflexivity|].
  repeat (try (left; reflexivity); right).
Qed.
